(** * struct2db: the persistence controller

    A shallow embedding of the controller operations of package
    [struct2db] ([Save], [Load], [Delete], [DeleteMultiple],
    [UpdateMultiple], [Get], [StringToFieldValues]) and the properties
    of them that the specification states.

    Go values behind [interface{}] are a small tagged union, a Go map
    is a [gmap] (a nil map reads as the empty one), a Go [error] that
    may be nil is an [option error], and the database connection is an
    oracle threaded through a state monad that also records every
    call to a collaborator with the answer it gave. *)

From Stdlib Require Import ZArith String Ascii Lia DecimalString.
From stdpp Require Import base option list strings gmap fin_maps.

Open Scope Z_scope.
Open Scope string_scope.
Open Scope list_scope.

(** ** Values, kinds and records *)

(** Modelled from the spec: the record types are declared outside the
    files at hand. A data field has one of four primitive kinds
    (64-bit integer, integer, string, boolean), named as in
    [reflect.Kind]. *)
Inductive Kind := Int64 | Int | String_ | Bool.

(** A Go value held in an [interface{}]. *)
Inductive value :=
| VInt64 (n : Z)
| VInt (n : Z)
| VString (s : string)
| VBool (b : bool).

#[global] Instance Kind_eq_dec : EqDecision Kind.
Proof. solve_decision. Defined.

#[global] Instance value_eq_dec : EqDecision value.
Proof. solve_decision. Defined.

Definition kind_of (v : value) : Kind :=
  match v with
  | VInt64 _ => Int64
  | VInt _ => Int
  | VString _ => String_
  | VBool _ => Bool
  end.

(** [reflect.Zero] of a kind. *)
Definition zero_of (k : Kind) : value :=
  match k with
  | Int64 => VInt64 0
  | Int => VInt 0
  | String_ => VString ""
  | Bool => VBool false
  end.

(** Modelled from the spec: a record has exactly one identity field,
    an integer key called ID in the sources, and its data fields, here
    in declaration order. *)
Record Obj := mkObj {
  ObjType : string;
  ID : Z;
  Data : list (string * value);
}.

#[global] Instance Obj_eq_dec : EqDecision Obj.
Proof. solve_decision. Defined.

Definition IDFieldName : string := "ID".

Fixpoint assoc (k : string) (l : list (string * value)) : option value :=
  match l with
  | [] => None
  | (k', v) :: l' => if String.eqb k k' then Some v else assoc k l'
  end.

(** [reflect.Type.FieldByName] followed by [Type.Kind()]: the kind of
    the field called [k], when the record has one. *)
Definition FieldByName (obj : Obj) (k : string) : option Kind :=
  if String.eqb k IDFieldName then Some Int64
  else kind_of <$> assoc k (Data obj).

(** ** Errors *)

(** Go [error] values the controller sees or builds. [Errorf msg w] is
    [fmt.Errorf(msg + "%w", w)]: it wraps [w] when [w] is an error and
    wraps nothing when the operand is nil. *)
#[warnings="-register-all"]
Inductive error :=
| ErrNoRows
| ErrDriver (msg : string)
| ErrSyntax (fn input : string)
| ErrRange (fn input : string)
| ErrValidation (Fields : gmap string Z)
| ErrNew (msg : string)
| Errorf (msg : string) (wrapped : option error).

(** [errors.Unwrap]. *)
Definition Unwrap (e : error) : option error :=
  match e with
  | Errorf _ w => w
  | _ => None
  end.

Record ErrController := mkErr { Op : string; Err : error }.

(** A call that either returns or panics. *)
Inductive outcome (A : Type) :=
| Done (a : A)
| Panic (msg : string).
Arguments Done {A} a.
Arguments Panic {A} msg.

(** ** strconv *)

Module strconv.

Definition digit (c : ascii) : option Z :=
  let n := Z.of_nat (nat_of_ascii c) in
  if ((48 <=? n) && (n <=? 57))%Z then Some (n - 48) else None.

(** What a run of characters denotes: no numeral, a numeral beyond
    the unsigned range, or its value. *)
Inductive magnitude := NotNumeral | Overflow | Magnitude (un : Z).

(** The loop of [ParseUint]: the first character that is no digit is
    a syntax error, the first digit that takes the value beyond
    [maxVal] a range error. *)
Fixpoint digits (maxVal : Z) (s : string) (acc : Z) : magnitude :=
  match s with
  | EmptyString => Magnitude acc
  | String c s' =>
      match digit c with
      | Some d =>
          if (maxVal <? acc * 10 + d)%Z then Overflow
          else digits maxVal s' (acc * 10 + d)
      | None => NotNumeral
      end
  end.

(** The sign and what follows it: an optional [+] or [-] and at least
    one more character. *)
Definition literal (s : string) : option (bool * string) :=
  match s with
  | EmptyString => None
  | String c rest =>
      let '(neg, body) :=
        if Ascii.eqb c "-" then (true, rest)
        else if Ascii.eqb c "+" then (false, rest)
        else (false, s) in
      match body with
      | EmptyString => None
      | _ => Some (neg, body)
      end
  end.

(** [strconv.ParseInt(s, 10, bitSize)]. *)
Definition ParseIntAs (fn : string) (bitSize : Z) (s : string) : error + Z :=
  match literal s with
  | None => inl (ErrSyntax fn s)
  | Some (neg, body) =>
      match digits (2 ^ bitSize - 1) body 0 with
      | NotNumeral => inl (ErrSyntax fn s)
      | Overflow => inl (ErrRange fn s)
      | Magnitude un =>
          let cutoff := 2 ^ (bitSize - 1) in
          if neg then (if (un <=? cutoff)%Z then inr (- un) else inl (ErrRange fn s))
          else (if (un <? cutoff)%Z then inr un else inl (ErrRange fn s))
      end
  end.

Definition ParseInt (s : string) : error + Z := ParseIntAs "ParseInt" 64 s.

(** Width of [int] on the platforms the package targets. *)
Definition IntSize : Z := 64.

(** [strconv.Atoi(s)]. *)
Definition Atoi (s : string) : error + Z := ParseIntAs "Atoi" IntSize s.

(** [strconv.FormatInt(n, 10)]. *)
Definition FormatInt (n : Z) : string := NilZero.string_of_int (Z.to_int n).

(** [strconv.FormatBool(b)]. *)
Definition FormatBool (b : bool) : string := if b then "true" else "false".

(** [strconv.ParseBool(s)]. *)
Definition ParseBool (s : string) : option bool :=
  if existsb (String.eqb s) ["1"; "t"; "T"; "TRUE"; "true"; "True"] then Some true
  else if existsb (String.eqb s) ["0"; "f"; "F"; "FALSE"; "false"; "False"]
  then Some false
  else None.

End strconv.

(** ** StringToFieldValues *)

(** The type assertion [v.(string)]. *)
Definition as_string (v : value) : outcome string :=
  match v with
  | VString s => Done s
  | _ => Panic "interface conversion: interface {} is not string"
  end.

(** One iteration of the [range values] loop, on the output map [o]. *)
Definition StringToFieldValues_step (obj : Obj) (k : string) (v : value)
    (o : gmap string value) : outcome (gmap string value) :=
  match FieldByName obj k with
  | None => Done o
  | Some kind =>
      let r1 :=
        if decide (kind = Int64) then
          match as_string v with
          | Panic m => Panic m
          | Done s =>
              match strconv.ParseInt s with
              | inr i => Done (<[k := VInt64 i]> o)
              | inl _ => Done o
              end
          end
        else Done o in
      match r1 with
      | Panic m => Panic m
      | Done o1 =>
          let r2 :=
            if decide (kind = Int) then
              match as_string v with
              | Panic m => Panic m
              | Done s =>
                  match strconv.Atoi s with
                  | inr i => Done (<[k := VInt i]> o1)
                  | inl _ => Done o1
                  end
              end
            else Done o1 in
          match r2 with
          | Panic m => Panic m
          | Done o2 =>
              let o3 := if decide (kind = String_) then <[k := v]> o2 else o2 in
              if decide (kind = Bool) then
                match as_string v with
                | Panic m => Panic m
                | Done s =>
                    if String.eqb s "true" then Done (<[k := VBool true]> o3)
                    else Done (<[k := VBool false]> o3)
                end
              else Done o3
          end
      end
  end.

Definition StringToFieldValues (obj : Obj) (values : gmap string value)
    : outcome (gmap string value) :=
  map_fold
    (fun k v acc =>
       match acc with
       | Panic m => Panic m
       | Done o => StringToFieldValues_step obj k v o
       end)
    (Done ∅) values.

(** What a string [s] supplied for a field of kind [kind] becomes. *)
Definition coerce (kind : Kind) (s : string) : option value :=
  match kind with
  | Int64 => match strconv.ParseInt s with inr i => Some (VInt64 i) | inl _ => None end
  | Int => match strconv.Atoi s with inr i => Some (VInt i) | inl _ => None end
  | String_ => Some (VString s)
  | Bool => Some (VBool (String.eqb s "true"))
  end.

(** [CoerceStringMap] in the words of the specification, on a map of
    strings: for each key present on the record the string is
    converted by the field's declared kind; keys absent from the
    record and values that fail parsing are dropped. *)
Definition CoerceStringMap (obj : Obj) (m : gmap string string) : gmap string value :=
  map_imap (fun k s => FieldByName obj k ≫= fun kind => coerce kind s) m.

(** ** The field introspector *)

(** An addressable field of a record: what [Addr().Interface()] hands
    to the database driver, as a query argument or as a scan target. *)
Inductive slot := SlotID | SlotData (i : nat).

Definition slot_kind (obj : Obj) (s : slot) : option Kind :=
  match s with
  | SlotID => Some Int64
  | SlotData i => (fun p => kind_of (snd p)) <$> Data obj !! i
  end.

Definition load (obj : Obj) (s : slot) : option value :=
  match s with
  | SlotID => Some (VInt64 (ID obj))
  | SlotData i => snd <$> Data obj !! i
  end.

Definition store (obj : Obj) (s : slot) (v : value) : Obj :=
  match s with
  | SlotID =>
      match v with
      | VInt64 n => mkObj (ObjType obj) n (Data obj)
      | _ => obj
      end
  | SlotData i =>
      mkObj (ObjType obj) (ID obj) (alter (fun p => (fst p, v)) i (Data obj))
  end.

(** The values the driver reads through a list of slots. *)
Definition deref (obj : Obj) (slots : list slot) : list value :=
  omap (load obj) slots.

(** Modelled from the spec: [GetObjIDValue] (IdentityValue of the
    field introspector) is declared outside the files at hand; it
    reads the identity field. *)
Definition GetObjIDValue (obj : Obj) : Z := ID obj.

(** Modelled from the spec: [GetObjIDInterface] (IdentityAddress) is
    declared outside the files at hand; it is the address of the
    identity field. *)
Definition GetObjIDInterface (obj : Obj) : slot := SlotID.

(** Modelled from the spec: [GetObjFieldInterfaces] (FieldAddresses)
    is declared outside the files at hand; the addresses of the data
    fields in column order, after that of the identity when it is
    asked for. *)
Definition GetObjFieldInterfaces (obj : Obj) (includeID : bool) : list slot :=
  (if includeID then [SlotID] else []) ++ (SlotData <$> seq 0 (length (Data obj))).

(** Modelled from the spec: [ResetFields] is declared outside the files
    at hand; it sets the identity and every data field to its zero
    value, in place. *)
Definition ResetFields (obj : Obj) : Obj :=
  mkObj (ObjType obj) 0 ((fun p => (fst p, zero_of (kind_of (snd p)))) <$> Data obj).

(** A record all of whose fields hold their zero values. *)
Definition is_zeroed (obj : Obj) : Prop :=
  ID obj = 0 ∧ Forall (fun p => snd p = zero_of (kind_of (snd p))) (Data obj).

(** ** database/sql *)

(** [asString(src)] of database/sql: the column as text. *)
Definition asString (src : value) : string :=
  match src with
  | VString s => s
  | VInt64 n | VInt n => strconv.FormatInt n
  | VBool b => strconv.FormatBool b
  end.

(** [convertAssign(dest, src)] of database/sql for a destination of
    kind [k]. A column of the kind of the destination is assigned as
    it is. Otherwise a string destination takes the text of the
    column, an integer destination what the text of the column parses
    to, and a boolean destination a string that [ParseBool] accepts or
    an integer that is 0 or 1. The columns are the values of [value]:
    a NULL, binary, floating-point or time column is not among them. *)
Definition convertAssign (k : Kind) (src : value) : error + value :=
  match k, src with
  | String_, _ => inr (VString (asString src))
  | Bool, VBool b => inr (VBool b)
  | Bool, VString s =>
      match strconv.ParseBool s with
      | Some b => inr (VBool b)
      | None => inl (ErrDriver "sql/driver: couldn't convert into type bool")
      end
  | Bool, (VInt64 n | VInt n) =>
      if (n =? 1)%Z then inr (VBool true)
      else if (n =? 0)%Z then inr (VBool false)
      else inl (ErrDriver "sql/driver: couldn't convert into type bool")
  | Int64, VInt64 n => inr (VInt64 n)
  | Int64, _ =>
      match strconv.ParseIntAs "ParseInt" 64 (asString src) with
      | inr i => inr (VInt64 i)
      | inl _ => inl (ErrDriver "sql: Scan error: converting driver.Value to a int64")
      end
  | Int, VInt n => inr (VInt n)
  | Int, _ =>
      match strconv.ParseIntAs "ParseInt" strconv.IntSize (asString src) with
      | inr i => inr (VInt i)
      | inl _ => inl (ErrDriver "sql: Scan error: converting driver.Value to a int")
      end
  end.

(** Columns are assigned left to right; the first one that does not
    convert stops the scan and leaves the earlier ones written. *)
Fixpoint Scan_columns (dest : list slot) (cols : list value) (obj : Obj)
    : option error * Obj :=
  match dest, cols with
  | d :: dest', cv :: cols' =>
      match slot_kind obj d with
      | None => (Some (ErrDriver "sql: Scan error: destination not a pointer"), obj)
      | Some k =>
          match convertAssign k cv with
          | inl e => (Some e, obj)
          | inr v => Scan_columns dest' cols' (store obj d v)
          end
      end
  | _, _ => (None, obj)
  end.

(** [Rows.Scan(dest...)] on the current row. *)
Definition Scan (cols : list value) (dest : list slot) (obj : Obj)
    : option error * Obj :=
  if (length dest =? length cols)%nat then Scan_columns dest cols obj
  else (Some (ErrDriver "sql: expected destination arguments in Scan"), obj).

(** [Row.Scan(dest...)] on the result of [QueryRow]: the deferred
    error of the query, [ErrNoRows] included, or the scan of its row. *)
Definition Row_Scan (row : error + list value) (dest : list slot) (obj : Obj)
    : option error * Obj :=
  match row with
  | inl e => (Some e, obj)
  | inr cols => Scan cols dest obj
  end.

(** [Rows.Scan(&returnedId)] into a local int64. *)
Definition Scan_int64 (cols : list value) : error + Z :=
  match cols with
  | [cv] =>
      match convertAssign Int64 cv with
      | inr (VInt64 n) => inr n
      | inr _ => inl (ErrDriver "sql: Scan error: unsupported Scan")
      | inl e => inl e
      end
  | _ => inl (ErrDriver "sql: expected destination arguments in Scan")
  end.

(** A slice that may be nil. *)
Definition slice (A : Type) : Type := option (list A).

Definition append {A : Type} (s : slice A) (x : A) : slice A :=
  Some (default [] s ++ [x]).

(** ** The SQL generator and the options *)

(** The queries of a [stsql.StructSQL] handle that the controller
    asks for. *)
Record StructSQL := mkStructSQL {
  GetQueryInsert : string;
  GetQueryUpdateById : string;
  GetQueryInsertOnConflictUpdate : string;
  GetQuerySelectById : string;
  GetQueryDeleteById : string;
  GetQueryDeleteReturningID : gmap string value → string;
  GetQueryUpdate : gmap string value → gmap string value → string;
  GetQuerySelect : list string → Z → Z → gmap string value → string;
}.

(** What a row transform hands back: the record or any other value. *)
Inductive any :=
| AnyObj (o : Obj)
| AnyValue (v : value).

Module SaveOptions.
Record t := mk { NoInsert : bool }.
End SaveOptions.

Module GetOptions.
Record t := mk {
  Order : list string;
  Limit : Z;
  Offset : Z;
  Filters : gmap string value;
  RowObjTransformFunc : option (Obj → any);
}.
End GetOptions.

Module DeleteOptions.
Record t := mk { Constructors : gmap string (unit → Obj) }.
End DeleteOptions.

Module DeleteMultipleOptions.
Record t := mk {
  Filters : gmap string value;
  CascadeDeleteDepth : Z;
  Constructors : gmap string (unit → Obj);
}.
End DeleteMultipleOptions.

Module UpdateMultipleOptions.
Record t := mk {
  Filters : gmap string value;
  CascadeDeleteDepth : Z;
  ConvertValuesFromString : bool;
}.
End UpdateMultipleOptions.

(** ** The controller and the database *)

(** What the controller asks of its collaborators, in order, each
    with the answer it got. *)
Inductive Event :=
| EvValidate (obj : Obj) (m : gmap string value)
    (res : bool * gmap string Z * option error)
| EvExec (query : string) (args : list value) (res : option error)
| EvQueryRow (query : string) (args : list value) (res : error + list value)
| EvQuery (query : string) (args : list value) (res : error + list (list value))
| EvRunOnDelete (obj : Obj) (ids : list Z) (depth : Z) (res : option ErrController).

(** A statement sent to the database. *)
Definition is_statement (e : Event) : bool :=
  match e with
  | EvExec _ _ _ | EvQueryRow _ _ _ | EvQuery _ _ _ => true
  | EvValidate _ _ _ | EvRunOnDelete _ _ _ _ => false
  end.

(** The controller over a database with states [DB]. Its connection
    answers [Exec], [QueryRow] and [Query]; the schema cache
    ([getSQLGenerator]), the validator ([Validate]), the binding of a
    filter map ([GetFiltersInterfaces]) and the effect of the cascade
    traversal on the database ([cascade]) are methods declared outside
    the files at hand and are taken as they come. *)
Record Controller (DB : Type) := mkController {
  conn_Exec : string → list value → DB → option error * DB;
  conn_QueryRow : string → list value → DB → (error + list value) * DB;
  conn_Query : string → list value → DB → (error + list (list value)) * DB;
  tagName : string;
  getSQLGenerator : Obj → StructSQL + ErrController;
  validator : Obj → gmap string value → bool * gmap string Z * option error;
  GetFiltersInterfaces : gmap string value → list value;
  cascade : Obj → gmap string (unit → Obj) → string → list Z → Z → DB
            → option ErrController * DB;
}.
Arguments mkController {DB}.
Arguments conn_Exec {DB} c query args db : rename.
Arguments conn_QueryRow {DB} c query args db : rename.
Arguments conn_Query {DB} c query args db : rename.
Arguments tagName {DB} c : rename.
Arguments getSQLGenerator {DB} c obj : rename.
Arguments validator {DB} c obj filters : rename.
Arguments GetFiltersInterfaces {DB} c filters : rename.
Arguments cascade {DB} c obj constructors tag ids depth db : rename.

(** The database together with the record of what was asked. *)
Record World (DB : Type) := mkWorld { conn : DB; trace : list Event }.
Arguments mkWorld {DB} conn trace.
Arguments conn {DB} w.
Arguments trace {DB} w.

(** Computations that talk to the database. *)
Definition M (DB A : Type) : Type := World DB → A * World DB.

#[global] Instance M_ret {DB} : MRet (M DB) := fun A a w => (a, w).
#[global] Instance M_bind {DB} : MBind (M DB) :=
  fun A B f m w => let '(a, w') := m w in f a w'.

(** What a computation adds to the record when run from [w]. *)
Definition events {DB A : Type} (m : M DB A) (w : World DB) : list Event :=
  drop (length (trace w)) (trace (snd (m w))).

Section Operations.

Context {DB : Type}.
Variable c : Controller DB.

Definition emit (e : Event) (d : DB) (w : World DB) : World DB :=
  mkWorld d (trace w ++ [e]).

Definition dbConn_Exec (query : string) (args : list value) : M DB (option error) :=
  fun w =>
    let '(r, d) := conn_Exec c query args (conn w) in
    (r, emit (EvExec query args r) d w).

Definition dbConn_QueryRow (query : string) (args : list value)
    : M DB (error + list value) :=
  fun w =>
    let '(r, d) := conn_QueryRow c query args (conn w) in
    (r, emit (EvQueryRow query args r) d w).

Definition dbConn_Query (query : string) (args : list value)
    : M DB (error + list (list value)) :=
  fun w =>
    let '(r, d) := conn_Query c query args (conn w) in
    (r, emit (EvQuery query args r) d w).

(** [c.Validate(obj, m)]: the validator does not touch the database. *)
Definition Validate (obj : Obj) (m : gmap string value)
    : M DB (bool * gmap string Z * option error) :=
  fun w =>
    let r := validator c obj m in
    (r, emit (EvValidate obj m r) (conn w) w).

(** Modelled from the spec: [runOnDelete], the cascade traversal, is
    declared outside the files at hand. It is seeded with parent
    identities and a depth, deletes child rows in the database and
    leaves the record it is given as it is. *)
Definition runOnDelete (obj : Obj) (constructors : gmap string (unit → Obj))
    (tag : string) (ids : list Z) (depth : Z) : M DB (option ErrController) :=
  fun w =>
    let '(r, d) := cascade c obj constructors tag ids depth (conn w) in
    (r, emit (EvRunOnDelete obj ids depth r) d w).

(** The block every operation repeats around [c.Validate]: the
    validator's own failure is wrapped under [op], invalid fields are
    returned as an [ErrValidation] under [op]. *)
Definition validated (op msg : string) (obj : Obj) (m : gmap string value)
    : M DB (option ErrController) :=
  '(b, invalidFields, err1) ← Validate obj m;
  match err1 with
  | Some e1 => mret (Some (mkErr op (Errorf msg (Some e1))))
  | None =>
      if negb b then mret (Some (mkErr op (ErrValidation invalidFields)))
      else mret None
  end.

(** The same block under [if len(filters) > 0]. *)
Definition validated_filters (obj : Obj) (filters : gmap string value)
    : M DB (option ErrController) :=
  if (0 <? size filters)%nat
  then validated "ValidateFilters" "Error when trying to validate filters: "
         obj filters
  else mret None.

Definition Save (obj : Obj) (options : SaveOptions.t)
    : M DB (option ErrController * Obj) :=
  match getSQLGenerator c obj with
  | inr err => mret (Some err, obj)
  | inl h =>
      verr ← validated "Validate" "Error when trying to validate: " obj ∅;
      match verr with
      | Some err => mret (Some err, obj)
      | None =>
          '(err3, obj') ←
            (if negb (GetObjIDValue obj =? 0)%Z then
               if SaveOptions.NoInsert options then
                 e ← dbConn_Exec (GetQueryUpdateById h)
                       (deref obj (GetObjFieldInterfaces obj false
                                   ++ [GetObjIDInterface obj]));
                 mret (e, obj)
               else
                 e ← dbConn_Exec (GetQueryInsertOnConflictUpdate h)
                       (deref obj (GetObjFieldInterfaces obj true
                                   ++ GetObjFieldInterfaces obj false));
                 mret (e, obj)
             else
               row ← dbConn_QueryRow (GetQueryInsert h)
                       (deref obj (GetObjFieldInterfaces obj false));
               mret (Row_Scan row [GetObjIDInterface obj] obj));
          match err3 with
          | Some e3 =>
              mret (Some (mkErr "DBQuery"
                            (Errorf "Error executing DB query: " (Some e3))), obj')
          | None => mret (None, obj')
          end
      end
  end.

Definition Load (obj : Obj) (id : string) : M DB (option ErrController * Obj) :=
  match strconv.Atoi id with
  | inl err =>
      mret (Some (mkErr "IDToInt"
                    (Errorf "Error converting string to int: " (Some err))), obj)
  | inr idInt =>
      (* past the check above, the variable [err] of the source is nil *)
      let err : option error := None in
      match getSQLGenerator c obj with
      | inr err2 => mret (Some err2, obj)
      | inl h =>
          row ← dbConn_QueryRow (GetQuerySelectById h) [VInt64 idInt];
          let '(err3, obj') := Row_Scan row (GetObjFieldInterfaces obj true) obj in
          match err3 with
          | Some ErrNoRows => mret (None, ResetFields obj')
          | Some _ =>
              mret (Some (mkErr "DBQuery"
                            (Errorf "Error executing DB query: " err)), obj')
          | None => mret (None, obj')
          end
      end
  end.

Definition Delete (obj : Obj) (options : DeleteOptions.t)
    : M DB (option ErrController * Obj) :=
  match getSQLGenerator c obj with
  | inr err => mret (Some err, obj)
  | inl h =>
      let id := GetObjIDValue obj in
      if (id =? 0)%Z then mret (None, obj)
      else
        err2 ← dbConn_Exec (GetQueryDeleteById h) (deref obj [GetObjIDInterface obj]);
        match err2 with
        | Some e2 =>
            mret (Some (mkErr "DBQuery"
                          (Errorf "Error executing DB query: " (Some e2))), obj)
        | None =>
            let obj' := ResetFields obj in
            err3 ← runOnDelete obj' (DeleteOptions.Constructors options)
                     (tagName c) [id] 0;
            match err3 with
            | Some e3 => mret (Some e3, obj')
            | None => mret (None, obj')
            end
        end
  end.

(** The [for rows.Next()] loop of [DeleteMultiple]. *)
Fixpoint DeleteMultiple_rows (rows : list (list value)) (returnedIds : list Z)
    : ErrController + list Z :=
  match rows with
  | [] => inr returnedIds
  | cols :: rows' =>
      match Scan_int64 cols with
      | inl err3 =>
          inl (mkErr "DBQueryRowsScan"
                 (Errorf "Error scanning DB query row: " (Some err3)))
      | inr returnedId => DeleteMultiple_rows rows' (returnedIds ++ [returnedId])
      end
  end.

Definition DeleteMultiple (newObjFunc : unit → Obj)
    (options : DeleteMultipleOptions.t) : M DB (option ErrController) :=
  let obj := newObjFunc () in
  match getSQLGenerator c obj with
  | inr err => mret (Some err)
  | inl h =>
      let filters := DeleteMultipleOptions.Filters options in
      verr ← validated_filters obj filters;
      match verr with
      | Some err => mret (Some err)
      | None =>
          res ← dbConn_Query (GetQueryDeleteReturningID h filters)
                  (GetFiltersInterfaces c filters);
          match res with
          | inl err2 =>
              mret (Some (mkErr "DBQuery"
                            (Errorf "Error executing DB query: " (Some err2))))
          | inr rows =>
              match DeleteMultiple_rows rows [] with
              | inl err => mret (Some err)
              | inr returnedIds =>
                  let depth := DeleteMultipleOptions.CascadeDeleteDepth options in
                  if (depth <? 3)%Z then
                    err3 ← runOnDelete obj
                             (DeleteMultipleOptions.Constructors options)
                             (tagName c) returnedIds depth;
                    match err3 with
                    | Some e3 => mret (Some e3)
                    | None => mret None
                    end
                  else mret None
              end
          end
      end
  end.

Definition UpdateMultiple (newObjFunc : unit → Obj) (values : gmap string value)
    (options : UpdateMultipleOptions.t) : M DB (outcome (option ErrController)) :=
  let obj := newObjFunc () in
  match getSQLGenerator c obj with
  | inr err => mret (Done (Some err))
  | inl h =>
      if (size values <? 1)%nat then
        mret (Done (Some (mkErr "MissingValues" (ErrNew "Missing values for update"))))
      else
        match (if UpdateMultipleOptions.ConvertValuesFromString options
               then StringToFieldValues obj values
               else Done values) with
        | Panic m => mret (Panic m)
        | Done values =>
            verr ← validated "ValidateValues"
                     "Error when trying to validate values: " obj values;
            match verr with
            | Some err => mret (Done (Some err))
            | None =>
                let filters := UpdateMultipleOptions.Filters options in
                ferr ← validated_filters obj filters;
                match ferr with
                | Some err => mret (Done (Some err))
                | None =>
                    err2 ← dbConn_Exec (GetQueryUpdate h values filters)
                             (GetFiltersInterfaces c values
                              ++ GetFiltersInterfaces c filters);
                    match err2 with
                    | Some e2 =>
                        mret (Done (Some (mkErr "DBQuery"
                                (Errorf "Error executing DB query: " (Some e2)))))
                    | None => mret (Done None)
                    end
                end
            end
        end
  end.

(** The [for rows.Next()] loop of [Get], on the result slice [v]. *)
Fixpoint Get_rows (newObjFunc : unit → Obj) (transform : option (Obj → any))
    (rows : list (list value)) (v : slice any) : slice any * option ErrController :=
  match rows with
  | [] => (v, None)
  | cols :: rows' =>
      let newObj := newObjFunc () in
      let '(err3, newObj') := Scan cols (GetObjFieldInterfaces newObj true) newObj in
      match err3 with
      | Some e3 =>
          (None, Some (mkErr "DBQueryRowsScan"
                         (Errorf "Error scanning DB query row: " (Some e3))))
      | None =>
          match transform with
          | Some f => Get_rows newObjFunc transform rows' (append v (f newObj'))
          | None => Get_rows newObjFunc transform rows' (append v (AnyObj newObj'))
          end
      end
  end.

Definition Get (newObjFunc : unit → Obj) (options : GetOptions.t)
    : M DB (slice any * option ErrController) :=
  let obj := newObjFunc () in
  match getSQLGenerator c obj with
  | inr err => mret (None, Some err)
  | inl h =>
      let filters := GetOptions.Filters options in
      verr ← validated_filters obj filters;
      match verr with
      | Some err => mret (None, Some err)
      | None =>
          res ← dbConn_Query
                  (GetQuerySelect h (GetOptions.Order options)
                     (GetOptions.Limit options) (GetOptions.Offset options) filters)
                  (GetFiltersInterfaces c filters);
          match res with
          | inl err2 =>
              mret (None, Some (mkErr "DBQuery"
                                  (Errorf "Error executing DB query: " (Some err2))))
          | inr rows =>
              mret (Get_rows newObjFunc (GetOptions.RowObjTransformFunc options)
                      rows None)
          end
      end
  end.

End Operations.

(** What the check of a filter map asks of the validator: nothing
    when the map is empty. *)
Definition filter_check {DB : Type} (c : Controller DB) (obj : Obj)
    (m : gmap string value) : list Event :=
  if (0 <? size m)%nat then [EvValidate obj m (validator c obj m)] else [].

(** The error every operation returns when a statement fails. *)
Definition DBQuery_failure (e3 : error) : ErrController :=
  mkErr "DBQuery" (Errorf "Error executing DB query: " (Some e3)).

(** The error [Get] and [DeleteMultiple] return when a row does not scan. *)
Definition ScanError (e3 : error) : ErrController :=
  mkErr "DBQueryRowsScan" (Errorf "Error scanning DB query row: " (Some e3)).

(** The error of [UpdateMultiple] on an empty values map. *)
Definition MissingValues : ErrController :=
  mkErr "MissingValues" (ErrNew "Missing values for update").

(** ** A sample schema and scripted controllers *)

Module Sample.

Definition person (id : Z) (name : string) (age : Z) (active : bool) : Obj :=
  mkObj "Person" id
    [("Name", VString name); ("Age", VInt age); ("Active", VBool active)].

Definition newPerson : unit → Obj := fun _ => person 0 "" 0 false.

(** A record with an integer field Age and a boolean field Active. *)
Definition member : Obj := mkObj "Member" 0 [("Age", VInt 0); ("Active", VBool false)].

Definition personSQL : StructSQL :=
  mkStructSQL
    "INSERT INTO persons(name,age,active) VALUES($1,$2,$3) RETURNING id"
    "UPDATE persons SET name=$1,age=$2,active=$3 WHERE id=$4"
    "INSERT INTO persons(id,name,age,active) VALUES($1,$2,$3,$4) ON CONFLICT (id) DO UPDATE SET name=$5,age=$6,active=$7"
    "SELECT id,name,age,active FROM persons WHERE id=$1"
    "DELETE FROM persons WHERE id=$1"
    (fun _ => "DELETE FROM persons RETURNING id")
    (fun _ _ => "UPDATE persons SET")
    (fun _ _ _ _ => "SELECT id,name,age,active FROM persons").

Definition schemaError : ErrController :=
  mkErr "GetHelper" (Errorf "Error getting StructSQL: " (Some (ErrNew "unsupported field"))).

(** A controller whose collaborators answer from a script; the state
    of its database is the number of statements it has served. *)
Definition scripted (schema : bool) (report : bool * gmap string Z * option error)
    (exec : option error) (row : error + list value)
    (rows : error + list (list value)) : Controller nat :=
  mkController
    (fun _ _ n => (exec, S n))
    (fun _ _ n => (row, S n))
    (fun _ _ n => (rows, S n))
    "crud"
    (fun _ => if schema then inl personSQL else inr schemaError)
    (fun _ _ => report)
    (fun m => snd <$> map_to_list m)
    (fun _ _ _ _ _ n => (None, n)).

Definition passes : bool * gmap string Z * option error := (true, ∅, None).

Definition fails : bool * gmap string Z * option error :=
  (false, {["Name" := 1]}, None).

Definition w0 : World nat := mkWorld 0%nat [].

(** A person not yet saved and one saved under identity 5. *)
Definition ann : Obj := person 0 "Ann" 30 true.
Definition saved : Obj := person 5 "Ann" 30 true.

Definition down : error := ErrDriver "connection refused".

(** The database generates key 42 and deletes the rows 7 and 9. *)
Definition ctlOK : Controller nat :=
  scripted true passes None (inr [VInt64 42]) (inr [[VInt64 7]; [VInt64 9]]).

(** No row matches. *)
Definition ctlNoRows : Controller nat :=
  scripted true passes None (inl ErrNoRows) (inr []).

(** The database is unreachable. *)
Definition ctlDown : Controller nat :=
  scripted true passes (Some down) (inl down) (inl down).

(** The validator reports the field Name. *)
Definition ctlInvalid : Controller nat :=
  scripted true fails None (inr [VInt64 42]) (inr []).

(** The schema of the record does not resolve. *)
Definition ctlNoSchema : Controller nat :=
  scripted false passes None (inr [VInt64 42]) (inr []).

(** The select returns a row that scans and one that does not. *)
Definition ctlBadRow : Controller nat :=
  scripted true passes None (inl ErrNoRows)
    (inr [[VInt64 1; VString "Bob"; VInt 41; VBool false]; [VString "oops"]]).

End Sample.

(** ** GetCount *)

Module GetCountOptions.
Record t := mk { Filters : gmap string value }.
End GetCountOptions.

Section Counting.

Context {DB : Type}.
Variable c : Controller DB.

(** [h.GetQuerySelectCount(filters, nil)]: a method of the handle of
    the SQL generator, taken as it comes. *)
Variable GetQuerySelectCount : StructSQL → gmap string value → string.

(** [Row.Scan(&cnt)] into a local int64. *)
Definition Row_Scan_int64 (row : error + list value) : error + Z :=
  match row with
  | inl e => inl e
  | inr cols => Scan_int64 cols
  end.

Definition GetCount (newObjFunc : unit → Obj) (options : GetCountOptions.t)
    : M DB (Z * option ErrController) :=
  let obj := newObjFunc () in
  match getSQLGenerator c obj with
  | inr err => mret (0, Some err)
  | inl h =>
      let filters := GetCountOptions.Filters options in
      verr ← validated_filters c obj filters;
      match verr with
      | Some err => mret (0, Some err)
      | None =>
          row ← dbConn_QueryRow c (GetQuerySelectCount h filters)
                  (GetFiltersInterfaces c filters);
          match Row_Scan_int64 row with
          | inl err3 =>
              mret (0, Some (mkErr "DBQueryRowScan"
                               (Errorf "Error scanning DB query row: " (Some err3))))
          | inr cnt => mret (cnt, None)
          end
      end
  end.

End Counting.

(** ** Notions the further properties are stated with *)

(** The record [obj] with identity [id] and the values [vs] in its
    data fields, in order. *)
Definition bound (obj : Obj) (id : Z) (vs : list value) : Obj :=
  mkObj (ObjType obj) id (zip (fst <$> Data obj) vs).

(** The columns fit the record: one per data field, of its kind. *)
Definition fits (obj : Obj) (vs : list value) : Prop :=
  Forall2 (fun p v => kind_of v = kind_of (snd p)) (Data obj) vs.

(** An entry of a values map on which [StringToFieldValues] asserts
    a string and does not get one. *)
Definition not_a_string (obj : Obj) (k : string) (v : value) : bool :=
  match FieldByName obj k, v with
  | Some (Int64 | Int | Bool), (VInt64 _ | VInt _ | VBool _) => true
  | _, _ => false
  end.

(** The message of the panic of a failed assertion [v.(string)]. *)
Definition assertion_panic : string :=
  "interface conversion: interface {} is not string".

(** The element [Get] appends for a row: the record the row scans
    into, handed through the row transform when there is one. *)
Definition row_element (newObjFunc : unit → Obj) (transform : option (Obj → any))
    (cols : list value) : any :=
  let newObj := newObjFunc () in
  let scanned := snd (Scan cols (GetObjFieldInterfaces newObj true) newObj) in
  match transform with
  | Some f => f scanned
  | None => AnyObj scanned
  end.

(** What an entry of a values map becomes, any value allowed. *)
Definition coerce_value (obj : Obj) (k : string) (v : value) : option value :=
  match FieldByName obj k with
  | None => None
  | Some String_ => Some v
  | Some kind =>
      match v with
      | VString s => coerce kind s
      | _ => None
      end
  end.

(** The error of [Load] on an id that is no integer. *)
Definition IDToInt_failure (e : error) : ErrController :=
  mkErr "IDToInt" (Errorf "Error converting string to int: " (Some e)).

(** The number of statements among some events. *)
Definition statements (l : list Event) : nat :=
  length (filter (fun e => is_statement e = true) l).

(** ** More scripted controllers *)

Module Script.

Import Sample.

(** The row of Bob, saved under identity 5. *)
Definition bobRow : list value := [VInt64 5; VString "Bob"; VInt 41; VBool false].
Definition eveRow : list value := [VInt64 6; VString "Eve"; VInt 29; VBool true].

(** The select-by-identity finds Bob; the select returns Bob and Eve. *)
Definition ctlFound : Controller nat :=
  scripted true passes None (inr bobRow) (inr [bobRow; eveRow]).

(** The delete returns an identity and a row that is none. *)
Definition ctlBadIds : Controller nat :=
  scripted true passes None (inr [VInt64 42]) (inr [[VInt64 7]; [VString "oops"]]).

Definition countQuery : StructSQL → gmap string value → string :=
  fun _ _ => "SELECT COUNT(*) AS cnt FROM persons".

Definition byName : gmap string value := {["Name" := VString "Ann"]}.

(** The schema does not resolve and the validator reports the field
    Name. *)
Definition ctlNoSchemaInvalid : Controller nat :=
  scripted false fails None (inr [VInt64 42]) (inr []).

End Script.

(** ** Properties *)

Lemma events_app {DB A : Type} (m : M DB A) (w : World DB) (l : list Event) :
  trace (snd (m w)) = trace w ++ l → events m w = l.
Proof.
  intros H. unfold events. rewrite H. apply drop_app_length.
Qed.

Section Properties.

Context {DB : Type}.
Variable c : Controller DB.

Ltac unfold_ops :=
  unfold Save, Load, Delete, DeleteMultiple, UpdateMultiple, Get,
    validated_filters, validated, Validate, runOnDelete,
    dbConn_Exec, dbConn_QueryRow, dbConn_Query, emit,
    mbind, M_bind, mret, M_ret in *.

(** Closes a goal whose hypothesis [H] finds an event in a list that
    holds none of its shape. *)
Ltac no_such_event H :=
  repeat (apply elem_of_cons in H as [H|H]; [discriminate H|]);
  apply elem_of_nil in H; destruct H.

(** C9. A record whose schema resolves and whose identity is 0 is
    left alone by [Delete]: it returns success, nothing is asked of
    the database or of any other collaborator, and the record is
    the one that was passed. *)
Theorem Delete_unsaved_noop (obj : Obj) (options : DeleteOptions.t)
    (h : StructSQL) (w : World DB) :
  getSQLGenerator c obj = inl h →
  ID obj = 0 →
  Delete c obj options w = ((None, obj), w).
Proof.
  intros Hgen Hid. unfold Delete, GetObjIDValue.
  rewrite Hgen, Hid. reflexivity.
Qed.


(** The three statements of [Save], one per branch. *)
Lemma Save_insert (obj : Obj) (options : SaveOptions.t) (h : StructSQL)
    (inv : gmap string Z) (w : World DB) :
  getSQLGenerator c obj = inl h →
  validator c obj ∅ = (true, inv, None) →
  ID obj = 0 →
  let q := GetQueryInsert h in
  let args := deref obj (GetObjFieldInterfaces obj false) in
  let ans := conn_QueryRow c q args (conn w) in
  Save c obj options w =
    (let '(e, o) := Row_Scan (fst ans) [GetObjIDInterface obj] obj in
     (DBQuery_failure <$> e, o),
     mkWorld (snd ans)
       (trace w ++ [EvValidate obj ∅ (true, inv, None); EvQueryRow q args (fst ans)])).
Proof.
  intros Hgen Hval Hid q args ans. unfold_ops. unfold GetObjIDValue.
  rewrite Hgen, Hval, Hid. cbn [negb Z.eqb conn trace].
  fold q args ans. destruct ans as [row d]. cbn [fst snd].
  destruct (Row_Scan _ _ _) as [[e|] o]; cbn; rewrite <- app_assoc; reflexivity.
Qed.

Lemma Save_upsert (obj : Obj) (options : SaveOptions.t) (h : StructSQL)
    (inv : gmap string Z) (w : World DB) :
  getSQLGenerator c obj = inl h →
  validator c obj ∅ = (true, inv, None) →
  ID obj ≠ 0 →
  SaveOptions.NoInsert options = false →
  let q := GetQueryInsertOnConflictUpdate h in
  let args := deref obj (GetObjFieldInterfaces obj true
                         ++ GetObjFieldInterfaces obj false) in
  let ans := conn_Exec c q args (conn w) in
  Save c obj options w =
    ((DBQuery_failure <$> fst ans, obj),
     mkWorld (snd ans)
       (trace w ++ [EvValidate obj ∅ (true, inv, None); EvExec q args (fst ans)])).
Proof.
  intros Hgen Hval Hid Hno q args ans. unfold_ops. unfold GetObjIDValue.
  apply Z.eqb_neq in Hid.
  rewrite Hgen, Hval, Hid, Hno. cbn [negb conn trace].
  fold q args ans. destruct ans as [[e|] d]; cbn; rewrite <- app_assoc; reflexivity.
Qed.

Lemma Save_update (obj : Obj) (options : SaveOptions.t) (h : StructSQL)
    (inv : gmap string Z) (w : World DB) :
  getSQLGenerator c obj = inl h →
  validator c obj ∅ = (true, inv, None) →
  ID obj ≠ 0 →
  SaveOptions.NoInsert options = true →
  let q := GetQueryUpdateById h in
  let args := deref obj (GetObjFieldInterfaces obj false
                         ++ [GetObjIDInterface obj]) in
  let ans := conn_Exec c q args (conn w) in
  Save c obj options w =
    ((DBQuery_failure <$> fst ans, obj),
     mkWorld (snd ans)
       (trace w ++ [EvValidate obj ∅ (true, inv, None); EvExec q args (fst ans)])).
Proof.
  intros Hgen Hval Hid Hno q args ans. unfold_ops. unfold GetObjIDValue.
  apply Z.eqb_neq in Hid.
  rewrite Hgen, Hval, Hid, Hno. cbn [negb conn trace].
  fold q args ans. destruct ans as [[e|] d]; cbn; rewrite <- app_assoc; reflexivity.
Qed.

(** C1. For a record whose schema resolves and whose fields pass
    validation, [Save] sends exactly one statement, whatever the
    state of the database: with identity 0 the insert query, whose
    generated key is written into the identity field; with a nonzero
    identity and [NoInsert] unset the insert-on-conflict-update
    statement; with a nonzero identity and [NoInsert] set the
    update-by-identity statement. *)
Theorem Save_dispatch (obj : Obj) (options : SaveOptions.t) (h : StructSQL)
    (inv : gmap string Z) (w : World DB) :
  getSQLGenerator c obj = inl h →
  validator c obj ∅ = (true, inv, None) →
  let checked := EvValidate obj ∅ (true, inv, None) in
  let failure := DBQuery_failure in
  (ID obj = 0 →
     let q := GetQueryInsert h in
     let args := deref obj (GetObjFieldInterfaces obj false) in
     let ans := conn_QueryRow c q args (conn w) in
     events (Save c obj options) w = [checked; EvQueryRow q args (fst ans)] ∧
     conn (snd (Save c obj options w)) = snd ans ∧
     ∀ key, fst ans = inr [VInt64 key] →
            fst (Save c obj options w) = (None, mkObj (ObjType obj) key (Data obj)))
  ∧ (ID obj ≠ 0 → SaveOptions.NoInsert options = false →
     let q := GetQueryInsertOnConflictUpdate h in
     let args := deref obj (GetObjFieldInterfaces obj true
                            ++ GetObjFieldInterfaces obj false) in
     let ans := conn_Exec c q args (conn w) in
     events (Save c obj options) w = [checked; EvExec q args (fst ans)] ∧
     conn (snd (Save c obj options w)) = snd ans ∧
     fst (Save c obj options w) = (failure <$> fst ans, obj))
  ∧ (ID obj ≠ 0 → SaveOptions.NoInsert options = true →
     let q := GetQueryUpdateById h in
     let args := deref obj (GetObjFieldInterfaces obj false
                            ++ [GetObjIDInterface obj]) in
     let ans := conn_Exec c q args (conn w) in
     events (Save c obj options) w = [checked; EvExec q args (fst ans)] ∧
     conn (snd (Save c obj options w)) = snd ans ∧
     fst (Save c obj options w) = (failure <$> fst ans, obj)).
Proof.
  intros Hgen Hval checked failure.
  split; [|split].
  - intros Hid q args ans.
    pose proof (Save_insert obj options h inv w Hgen Hval Hid) as E.
    cbv zeta in E. subst q args ans checked failure.
    split; [|split].
    + apply events_app. rewrite E. destruct (Row_Scan _ _ _); reflexivity.
    + rewrite E. destruct (Row_Scan _ _ _); reflexivity.
    + intros key Hkey. rewrite E, Hkey. reflexivity.
  - intros Hid Hno q args ans.
    pose proof (Save_upsert obj options h inv w Hgen Hval Hid Hno) as E.
    cbv zeta in E. subst q args ans checked failure.
    split; [|split]; [apply events_app| |]; rewrite E; reflexivity.
  - intros Hid Hno q args ans.
    pose proof (Save_update obj options h inv w Hgen Hval Hid Hno) as E.
    cbv zeta in E. subst q args ans checked failure.
    split; [|split]; [apply events_app| |]; rewrite E; reflexivity.
Qed.

(** What [Save] does before it reaches the database. *)
Lemma Save_unresolved (obj : Obj) (options : SaveOptions.t) (err : ErrController)
    (w : World DB) :
  getSQLGenerator c obj = inr err →
  Save c obj options w = ((Some err, obj), w).
Proof. intros Hgen. unfold Save. rewrite Hgen. reflexivity. Qed.

Lemma Save_validator_failed (obj : Obj) (options : SaveOptions.t) (h : StructSQL)
    (b : bool) (inv : gmap string Z) (e1 : error) (w : World DB) :
  getSQLGenerator c obj = inl h →
  validator c obj ∅ = (b, inv, Some e1) →
  Save c obj options w =
    ((Some (mkErr "Validate" (Errorf "Error when trying to validate: " (Some e1))), obj),
     mkWorld (conn w) (trace w ++ [EvValidate obj ∅ (b, inv, Some e1)])).
Proof. intros Hgen Hval. unfold_ops. rewrite Hgen, Hval. reflexivity. Qed.

Lemma Save_rejected (obj : Obj) (options : SaveOptions.t) (h : StructSQL)
    (inv : gmap string Z) (w : World DB) :
  getSQLGenerator c obj = inl h →
  validator c obj ∅ = (false, inv, None) →
  Save c obj options w =
    ((Some (mkErr "Validate" (ErrValidation inv)), obj),
     mkWorld (conn w) (trace w ++ [EvValidate obj ∅ (false, inv, None)])).
Proof. intros Hgen Hval. unfold_ops. rewrite Hgen, Hval. reflexivity. Qed.

(** C5, as the code has it. For a record whose schema resolves and
    for which the validator reports invalid fields, [Save] returns an
    [ErrValidation] that carries exactly those fields; the validator
    is all it has asked, no statement is sent, the database is in the
    state it was in and the record is the one that was passed. *)
Theorem Save_invalid_stops (obj : Obj) (options : SaveOptions.t) (h : StructSQL)
    (inv : gmap string Z) (w : World DB) :
  getSQLGenerator c obj = inl h →
  validator c obj ∅ = (false, inv, None) →
  fst (Save c obj options w) = (Some (mkErr "Validate" (ErrValidation inv)), obj)
  ∧ events (Save c obj options) w = [EvValidate obj ∅ (false, inv, None)]
  ∧ filter (fun e => is_statement e = true) (events (Save c obj options) w) = []
  ∧ conn (snd (Save c obj options w)) = conn w.
Proof.
  intros Hgen Hval.
  pose proof (Save_rejected _ options _ _ w Hgen Hval) as E.
  assert (events (Save c obj options) w = [EvValidate obj ∅ (false, inv, None)]) as Hev
    by (apply events_app; rewrite E; reflexivity).
  rewrite Hev, E. repeat split.
Qed.

(** C6, as the code has it. On a record whose schema resolves,
    [UpdateMultiple] with an empty values map fails with the
    missing-values error whatever the filters and the other options
    are, and asks nothing of the database or of the validator. *)
Theorem UpdateMultiple_missing_values (newObjFunc : unit → Obj)
    (options : UpdateMultipleOptions.t) (h : StructSQL) (w : World DB) :
  getSQLGenerator c (newObjFunc ()) = inl h →
  UpdateMultiple c newObjFunc ∅ options w = (Done (Some MissingValues), w).
Proof.
  intros Hgen. unfold UpdateMultiple. rewrite Hgen, map_size_empty. reflexivity.
Qed.

(** When the schema does not resolve, its error comes first. *)
Lemma UpdateMultiple_unresolved (newObjFunc : unit → Obj)
    (values : gmap string value) (options : UpdateMultipleOptions.t)
    (err : ErrController) (w : World DB) :
  getSQLGenerator c (newObjFunc ()) = inr err →
  UpdateMultiple c newObjFunc values options w = (Done (Some err), w).
Proof. intros Hgen. unfold UpdateMultiple. rewrite Hgen. reflexivity. Qed.

Lemma kind_of_zero (k : Kind) : kind_of (zero_of k) = k.
Proof. destruct k; reflexivity. Qed.

Lemma ResetFields_zeroed (obj : Obj) : is_zeroed (ResetFields obj).
Proof.
  split; [reflexivity|]. cbn. apply Forall_fmap, Forall_forall.
  intros p _. cbn. by rewrite kind_of_zero.
Qed.

(** C3, as the code has it. After a successful [Delete] of a record
    whose identity is nonzero, the identity and every data field of
    the record hold their zero values. *)
Theorem Delete_success_zeroes (obj obj' : Obj) (options : DeleteOptions.t)
    (w w' : World DB) :
  ID obj ≠ 0 →
  Delete c obj options w = ((None, obj'), w') →
  is_zeroed obj'.
Proof.
  intros Hid. apply Z.eqb_neq in Hid. unfold_ops. unfold GetObjIDValue.
  destruct (getSQLGenerator c obj) as [h|err]; [|discriminate].
  rewrite Hid.
  destruct (conn_Exec c _ _ _) as [[e2|] d]; [discriminate|].
  cbn [conn trace].
  destruct (cascade c _ _ _ _ _ _) as [[e3|] d']; [discriminate|].
  intros [= <- _]. apply ResetFields_zeroed.
Qed.

(** The one query of [Load] and what becomes of its answer. *)
Lemma Load_run (obj : Obj) (id : string) (idInt : Z) (h : StructSQL) (w : World DB) :
  strconv.Atoi id = inr idInt →
  getSQLGenerator c obj = inl h →
  let q := GetQuerySelectById h in
  let ans := conn_QueryRow c q [VInt64 idInt] (conn w) in
  Load c obj id w =
    (let '(err3, obj') := Row_Scan (fst ans) (GetObjFieldInterfaces obj true) obj in
     match err3 with
     | Some ErrNoRows => (None, ResetFields obj')
     | Some _ => (Some (mkErr "DBQuery" (Errorf "Error executing DB query: " None)), obj')
     | None => (None, obj')
     end,
     mkWorld (snd ans) (trace w ++ [EvQueryRow q [VInt64 idInt] (fst ans)])).
Proof.
  intros Hid Hgen q ans. unfold_ops. rewrite Hid, Hgen. fold q ans.
  destruct ans as [row d]. cbn [fst snd].
  destruct (Row_Scan _ _ _) as [[[]|] o]; reflexivity.
Qed.

(** C4. When the id string parses and the select-by-identity query
    finds no row, [Load] returns success and leaves the record with
    its identity and every data field at their zero values. *)
Theorem Load_no_rows_resets (obj : Obj) (id : string) (idInt : Z) (h : StructSQL)
    (w : World DB) :
  strconv.Atoi id = inr idInt →
  getSQLGenerator c obj = inl h →
  fst (conn_QueryRow c (GetQuerySelectById h) [VInt64 idInt] (conn w)) = inl ErrNoRows →
  fst (Load c obj id w) = (None, ResetFields obj)
  ∧ is_zeroed (ResetFields obj).
Proof.
  intros Hid Hgen Hrow. split; [|apply ResetFields_zeroed].
  rewrite (Load_run _ _ _ _ w Hid Hgen). cbv zeta. rewrite Hrow. reflexivity.
Qed.

(** C8, what the code does. When the select-by-identity query fails
    with an error other than [ErrNoRows], [Load] returns an error
    under "DBQuery" that wraps nothing: the error of the database is
    not in it. *)
Theorem Load_query_error_unwrapped (obj : Obj) (id : string) (idInt : Z)
    (h : StructSQL) (e : error) (w : World DB) :
  strconv.Atoi id = inr idInt →
  getSQLGenerator c obj = inl h →
  fst (conn_QueryRow c (GetQuerySelectById h) [VInt64 idInt] (conn w)) = inl e →
  e ≠ ErrNoRows →
  ∃ err, fst (Load c obj id w) = (Some err, obj)
         ∧ Op err = "DBQuery"
         ∧ Unwrap (Err err) = None.
Proof.
  intros Hid Hgen Hrow Hne.
  exists (mkErr "DBQuery" (Errorf "Error executing DB query: " None)).
  rewrite (Load_run _ _ _ _ w Hid Hgen). cbv zeta. rewrite Hrow.
  destruct e; try contradiction; repeat split.
Qed.

(** The filter check asks the validator at most once and leaves
    the database alone. *)
Lemma validated_filters_world (obj : Obj) (m : gmap string value) (w : World DB) :
  snd (validated_filters c obj m w) =
    mkWorld (conn w) (trace w ++ filter_check c obj m).
Proof.
  unfold filter_check. unfold_ops. destruct (0 <? size m)%nat.
  - destruct (validator c obj m) as [[b inv] [e1|]]; [|destruct b]; reflexivity.
  - cbn. rewrite app_nil_r. by destruct w.
Qed.

Lemma DeleteMultiple_run (newObjFunc : unit → Obj)
    (options : DeleteMultipleOptions.t) (h : StructSQL) (w : World DB)
    (rows : list (list value)) (ids : list Z) :
  let obj := newObjFunc () in
  let filters := DeleteMultipleOptions.Filters options in
  let depth := DeleteMultipleOptions.CascadeDeleteDepth options in
  let w1 := snd (validated_filters c obj filters w) in
  let q := GetQueryDeleteReturningID h filters in
  let args := GetFiltersInterfaces c filters in
  let ans := conn_Query c q args (conn w) in
  let cas := cascade c obj (DeleteMultipleOptions.Constructors options)
               (tagName c) ids depth (snd ans) in
  getSQLGenerator c obj = inl h →
  fst (validated_filters c obj filters w) = None →
  fst ans = inr rows →
  DeleteMultiple_rows rows [] = inr ids →
  DeleteMultiple c newObjFunc options w =
    if (depth <? 3)%Z
    then (fst cas,
          mkWorld (snd cas)
            (trace w1 ++ [EvQuery q args (inr rows);
                          EvRunOnDelete obj ids depth (fst cas)]))
    else (None, mkWorld (snd ans) (trace w1 ++ [EvQuery q args (inr rows)])).
Proof.
  intros obj filters depth w1 q args ans cas Hgen Hv Hrows Hids.
  unfold DeleteMultiple. fold obj. rewrite Hgen. fold filters.
  unfold mbind at 1, M_bind at 1.
  pose proof (validated_filters_world obj filters w) as Hw. subst w1.
  destruct (validated_filters c obj filters w) as [verr w1].
  cbn [fst snd] in *. subst verr.
  unfold mbind, M_bind, dbConn_Query, runOnDelete, emit, mret, M_ret.
  assert (conn w1 = conn w) as -> by (by rewrite Hw).
  fold q args ans depth. destruct ans as [res d]. cbn [fst snd] in *. subst res.
  rewrite Hids. destruct (depth <? 3)%Z; [|reflexivity].
  cbn [conn trace]. fold cas. destruct cas as [[e3|] d'];
    cbn [fst snd]; rewrite <- app_assoc; reflexivity.
Qed.

(** Every event [DeleteMultiple] adds: the filter check, then the
    delete-returning-ids query, then the cascade traversal when the
    rows scanned and the depth is below 3. *)
Lemma DeleteMultiple_events (newObjFunc : unit → Obj)
    (options : DeleteMultipleOptions.t) (w : World DB) :
  let obj := newObjFunc () in
  let filters := DeleteMultipleOptions.Filters options in
  let depth := DeleteMultipleOptions.CascadeDeleteDepth options in
  events (DeleteMultiple c newObjFunc options) w =
    match getSQLGenerator c obj with
    | inr _ => []
    | inl h =>
        let q := GetQueryDeleteReturningID h filters in
        let args := GetFiltersInterfaces c filters in
        let ans := conn_Query c q args (conn w) in
        filter_check c obj filters ++
        match fst (validated_filters c obj filters w) with
        | Some _ => []
        | None =>
            EvQuery q args (fst ans) ::
            match fst ans with
            | inl _ => []
            | inr rows =>
                match DeleteMultiple_rows rows [] with
                | inl _ => []
                | inr ids =>
                    if (depth <? 3)%Z
                    then [EvRunOnDelete obj ids depth
                            (fst (cascade c obj
                                    (DeleteMultipleOptions.Constructors options)
                                    (tagName c) ids depth (snd ans)))]
                    else []
                end
            end
        end
    end.
Proof.
  intros obj filters depth. apply events_app.
  unfold DeleteMultiple. fold obj filters depth.
  destruct (getSQLGenerator c obj) as [h|err] eqn:Hgen.
  2:{ cbn. by rewrite app_nil_r. }
  unfold mbind at 1, M_bind at 1.
  pose proof (validated_filters_world obj filters w) as Hw.
  fold (filter_check c obj filters) in Hw.
  destruct (validated_filters c obj filters w) as [verr w1].
  cbn [fst snd] in *. subst w1.
  destruct verr as [err|]; [by rewrite app_nil_r|].
  unfold mbind, M_bind, dbConn_Query, runOnDelete, emit, mret, M_ret.
  cbn [conn trace]. cbv zeta.
  destruct (conn_Query c _ _ _) as [[err2|rows] d]; cbn [fst snd].
  { cbn. by rewrite <- app_assoc. }
  destruct (DeleteMultiple_rows rows []) as [err|ids].
  { cbn. by rewrite <- app_assoc. }
  destruct (depth <? 3)%Z.
  2:{ cbn. by rewrite <- app_assoc. }
  cbn [conn trace].
  destruct (cascade c _ _ _ _ _ _) as [[e3|] d']; cbn; by rewrite <- !app_assoc.
Qed.

Lemma filter_check_validates (obj : Obj) (m : gmap string value) (e : Event) :
  e ∈ filter_check c obj m → e = EvValidate obj m (validator c obj m).
Proof.
  unfold filter_check. destruct (0 <? size m)%nat; intros H.
  - by apply list_elem_of_singleton in H.
  - no_such_event H.
Qed.

(** The filter check passes an empty map unasked and a map the
    validator accepts. *)
Lemma validated_filters_passes (obj : Obj) (m : gmap string value) (w : World DB) :
  m = ∅ ∨ (∃ inv, validator c obj m = (true, inv, None)) →
  fst (validated_filters c obj m w) = None.
Proof.
  intros [->|[inv Hval]]; unfold_ops.
  - by rewrite map_size_empty.
  - destruct (0 <? size m)%nat; [|reflexivity]. by rewrite Hval.
Qed.

(** C2, as the code has it. When the schema resolves, the filters, if
    there are any, pass validation and the delete-returning-ids query
    returns rows that scan to the identities [ids], [DeleteMultiple]
    invokes the cascade traversal if and only if the supplied depth is
    below 3; the invocation is the last thing it does, on the fresh
    record, seeded with exactly [ids] and the supplied depth, and its
    result is the result of the call; with a depth of 3 or more the
    query is the last thing it does and the call returns success. *)
Theorem DeleteMultiple_cascade_iff_below_max (newObjFunc : unit → Obj)
    (options : DeleteMultipleOptions.t) (h : StructSQL) (w : World DB)
    (rows : list (list value)) (ids : list Z) :
  let obj := newObjFunc () in
  let filters := DeleteMultipleOptions.Filters options in
  let depth := DeleteMultipleOptions.CascadeDeleteDepth options in
  let q := GetQueryDeleteReturningID h filters in
  let args := GetFiltersInterfaces c filters in
  let ans := conn_Query c q args (conn w) in
  let cas := cascade c obj (DeleteMultipleOptions.Constructors options)
               (tagName c) ids depth (snd ans) in
  let run := events (DeleteMultiple c newObjFunc options) w in
  getSQLGenerator c obj = inl h →
  filters = ∅ ∨ (∃ inv, validator c obj filters = (true, inv, None)) →
  fst ans = inr rows →
  DeleteMultiple_rows rows [] = inr ids →
  ((∃ o i n r, EvRunOnDelete o i n r ∈ run) ↔ (depth < 3)%Z)
  ∧ (∀ o i n r, EvRunOnDelete o i n r ∈ run → o = obj ∧ i = ids ∧ n = depth)
  ∧ run = filter_check c obj filters
          ++ EvQuery q args (inr rows)
          :: (if (depth <? 3)%Z then [EvRunOnDelete obj ids depth (fst cas)] else [])
  ∧ ((depth < 3)%Z → fst (DeleteMultiple c newObjFunc options w) = fst cas)
  ∧ ((3 ≤ depth)%Z → fst (DeleteMultiple c newObjFunc options w) = None).
Proof.
  intros obj filters depth q args ans cas run Hgen Hf Hans Hids.
  pose proof (validated_filters_passes obj filters w Hf) as Hv.
  pose proof (DeleteMultiple_run newObjFunc options h w rows ids Hgen Hv Hans Hids)
    as Hrun.
  cbv zeta in Hrun. fold obj filters depth q args ans cas in Hrun.
  assert (run = filter_check c obj filters
                ++ EvQuery q args (inr rows)
                :: (if (depth <? 3)%Z
                    then [EvRunOnDelete obj ids depth (fst cas)] else [])) as Hev.
  { subst run. rewrite DeleteMultiple_events. cbv zeta.
    fold obj filters depth. rewrite Hgen, Hv. fold q args ans.
    rewrite Hans, Hids. reflexivity. }
  rewrite Hev, Hrun. clear Hev Hrun.
  assert (∀ o i n r l,
            EvRunOnDelete o i n r ∈ filter_check c obj filters ++ EvQuery q args (inr rows) :: l →
            EvRunOnDelete o i n r ∈ l) as Htail.
  { intros o i n r l H. apply elem_of_app in H as [H|H];
      [apply filter_check_validates in H; discriminate|].
    apply elem_of_cons in H as [H|H]; [discriminate|exact H]. }
  destruct (depth <? 3)%Z eqn:Hd.
  - apply Z.ltb_lt in Hd. repeat split; try done; try lia.
    + intros _. do 4 eexists. apply elem_of_app. right.
      apply elem_of_cons. right. apply list_elem_of_singleton. reflexivity.
    + apply Htail, list_elem_of_singleton in H. by injection H as -> _ _ _.
    + apply Htail, list_elem_of_singleton in H. by injection H as _ -> _ _.
    + apply Htail, list_elem_of_singleton in H. by injection H as _ _ -> _.
  - apply Z.ltb_ge in Hd. repeat split; try done; try lia.
    + intros (o & i & n & r & H). apply Htail in H. no_such_event H.
    + apply Htail in H. no_such_event H.
    + apply Htail in H. no_such_event H.
    + apply Htail in H. no_such_event H.
Qed.

(** In any run of [DeleteMultiple], the cascade traversal is invoked
    only below depth 3 and only on identities scanned from the rows
    the delete-returning-ids query of that run returned. *)
Lemma DeleteMultiple_cascade_only_below_max (newObjFunc : unit → Obj)
    (options : DeleteMultipleOptions.t) (w : World DB)
    (o : Obj) (i : list Z) (n : Z) (r : option ErrController) :
  let depth := DeleteMultipleOptions.CascadeDeleteDepth options in
  let run := events (DeleteMultiple c newObjFunc options) w in
  EvRunOnDelete o i n r ∈ run →
  (depth < 3)%Z ∧ n = depth
  ∧ ∃ q args rows, EvQuery q args (inr rows) ∈ run
                   ∧ DeleteMultiple_rows rows [] = inr i.
Proof.
  intros depth run H. subst run.
  rewrite DeleteMultiple_events in *. cbv zeta in *. fold depth in H |- *.
  destruct (getSQLGenerator c (newObjFunc ())) as [h|err]; [|no_such_event H].
  apply elem_of_app in H as [H|H];
    [apply filter_check_validates in H; discriminate|].
  destruct (fst (validated_filters c _ _ w)); [no_such_event H|].
  apply elem_of_cons in H as [H|H]; [discriminate|].
  destruct (fst (conn_Query c _ _ _)) as [|rows]; [no_such_event H|].
  destruct (DeleteMultiple_rows rows []) as [|ids] eqn:Hids; [no_such_event H|].
  destruct (depth <? 3)%Z eqn:Hd; [|no_such_event H].
  apply list_elem_of_singleton in H. injection H as -> -> -> _.
  apply Z.ltb_lt in Hd. repeat split; [done|].
  do 3 eexists. split; [|exact Hids].
  apply elem_of_app. right. apply elem_of_cons. by left.
Qed.

(** The one query of [Get]. *)
Lemma Get_run (newObjFunc : unit → Obj) (options : GetOptions.t) (h : StructSQL)
    (w : World DB) :
  let obj := newObjFunc () in
  let filters := GetOptions.Filters options in
  let q := GetQuerySelect h (GetOptions.Order options) (GetOptions.Limit options)
             (GetOptions.Offset options) filters in
  let args := GetFiltersInterfaces c filters in
  let ans := conn_Query c q args (conn w) in
  getSQLGenerator c obj = inl h →
  fst (validated_filters c obj filters w) = None →
  Get c newObjFunc options w =
    (match fst ans with
     | inl err2 => (None, Some (DBQuery_failure err2))
     | inr rows =>
         Get_rows newObjFunc (GetOptions.RowObjTransformFunc options) rows None
     end,
     mkWorld (snd ans)
       (trace w ++ filter_check c obj filters ++ [EvQuery q args (fst ans)])).
Proof.
  intros obj filters q args ans Hgen Hv.
  unfold Get. fold obj. rewrite Hgen. fold filters.
  unfold mbind at 1, M_bind at 1.
  pose proof (validated_filters_world obj filters w) as Hw.
  destruct (validated_filters c obj filters w) as [verr w1].
  cbn [fst snd] in *. subst verr w1.
  unfold mbind, M_bind, dbConn_Query, emit, mret, M_ret. cbn [conn trace].
  fold q args ans. destruct ans as [[err2|rows] d];
    cbn [fst snd]; rewrite <- app_assoc; reflexivity.
Qed.

Lemma Get_events (newObjFunc : unit → Obj) (options : GetOptions.t) (w : World DB) :
  let obj := newObjFunc () in
  let filters := GetOptions.Filters options in
  events (Get c newObjFunc options) w =
    match getSQLGenerator c obj with
    | inr _ => []
    | inl h =>
        let q := GetQuerySelect h (GetOptions.Order options)
                   (GetOptions.Limit options) (GetOptions.Offset options) filters in
        let args := GetFiltersInterfaces c filters in
        filter_check c obj filters ++
        match fst (validated_filters c obj filters w) with
        | Some _ => []
        | None => [EvQuery q args (fst (conn_Query c q args (conn w)))]
        end
    end.
Proof.
  intros obj filters. apply events_app.
  destruct (getSQLGenerator c obj) as [h|err] eqn:Hgen.
  2:{ unfold Get. fold obj. rewrite Hgen. cbn. by rewrite app_nil_r. }
  destruct (fst (validated_filters c obj filters w)) as [verr|] eqn:Hv.
  2:{ rewrite (Get_run _ _ _ _ Hgen Hv). reflexivity. }
  unfold Get. fold obj. rewrite Hgen. fold filters.
  unfold mbind at 1, M_bind at 1.
  pose proof (validated_filters_world obj filters w) as Hw.
  destruct (validated_filters c obj filters w) as [verr' w1].
  cbn [fst snd] in *. subst verr' w1. cbn. by rewrite app_nil_r.
Qed.

(** The loop of [Get] stops at the first row that does not scan and
    drops what it had collected. *)
Lemma Get_rows_scan_error (newObjFunc : unit → Obj) (transform : option (Obj → any))
    (rows : list (list value)) (cols : list value) :
  cols ∈ rows →
  fst (Scan cols (GetObjFieldInterfaces (newObjFunc ()) true) (newObjFunc ())) ≠ None →
  ∀ v, ∃ cols' e,
    cols' ∈ rows
    ∧ fst (Scan cols' (GetObjFieldInterfaces (newObjFunc ()) true) (newObjFunc ()))
      = Some e
    ∧ Get_rows newObjFunc transform rows v = (None, Some (ScanError e)).
Proof.
  intros Hin Hbad. induction rows as [|row rows IH]; [no_such_event Hin|].
  intros v. cbn [Get_rows].
  destruct (Scan row _ _) as [[e3|] newObj'] eqn:Hrow.
  - exists row, e3. rewrite Hrow. repeat split. apply elem_of_cons. by left.
  - apply elem_of_cons in Hin as [->|Hin]; [by rewrite Hrow in Hbad|].
    destruct transform as [f|].
    + destruct (IH Hin (append v (f newObj'))) as (cols' & e & Hc & He & Hr).
      exists cols', e. repeat split; [apply elem_of_cons; by right|done|done].
    + destruct (IH Hin (append v (AnyObj newObj'))) as (cols' & e & Hc & He & Hr).
      exists cols', e. repeat split; [apply elem_of_cons; by right|done|done].
Qed.

(** The loop of [Get] hands back a slice or an error, never both. *)
Lemma Get_rows_error_nil (newObjFunc : unit → Obj) (transform : option (Obj → any))
    (rows : list (list value)) (v v' : slice any) (err : ErrController) :
  Get_rows newObjFunc transform rows v = (v', Some err) → v' = None.
Proof.
  revert v. induction rows as [|row rows IH]; intros v; cbn [Get_rows].
  - discriminate.
  - destruct (Scan row _ _) as [[e3|] newObj'].
    + by intros [= <- _].
    + destruct transform; apply IH.
Qed.

(** Whatever the run, an error of [Get] comes with the nil slice. *)
Lemma Get_error_nil (newObjFunc : unit → Obj) (options : GetOptions.t)
    (w : World DB) (v : slice any) (err : ErrController) :
  fst (Get c newObjFunc options w) = (v, Some err) → v = None.
Proof.
  unfold Get.
  destruct (getSQLGenerator c (newObjFunc ())) as [h|e]; [|by intros [= <- _]].
  unfold mbind at 1, M_bind at 1.
  destruct (validated_filters c _ _ w) as [[verr|] w1]; [by intros [= <- _]|].
  unfold mbind, M_bind, dbConn_Query, emit, mret, M_ret.
  destruct (conn_Query c _ _ _) as [[err2|rows] d]; cbn [fst].
  - by intros [= <- _].
  - apply Get_rows_error_nil.
Qed.

(** C10. When a row that the select query of [Get] returned does not
    scan, [Get] returns the nil slice together with the scan error
    of a row: what had been scanned before it is not returned. *)
Theorem Get_scan_error_discards (newObjFunc : unit → Obj) (options : GetOptions.t)
    (w : World DB) (q : string) (args : list value) (rows : list (list value))
    (cols : list value) :
  EvQuery q args (inr rows) ∈ events (Get c newObjFunc options) w →
  cols ∈ rows →
  fst (Scan cols (GetObjFieldInterfaces (newObjFunc ()) true) (newObjFunc ())) ≠ None →
  ∃ cols' e,
    cols' ∈ rows
    ∧ fst (Scan cols' (GetObjFieldInterfaces (newObjFunc ()) true) (newObjFunc ()))
      = Some e
    ∧ fst (Get c newObjFunc options w) = (None, Some (ScanError e))
    ∧ ∃ h, getSQLGenerator c (newObjFunc ()) = inl h
           ∧ q = GetQuerySelect h (GetOptions.Order options) (GetOptions.Limit options)
                   (GetOptions.Offset options) (GetOptions.Filters options).
Proof.
  intros Hin Hcols Hbad.
  pose proof (Get_run newObjFunc options) as Hrun.
  rewrite Get_events in Hin. cbv zeta in *.
  destruct (getSQLGenerator c (newObjFunc ())) as [h|err] eqn:Hgen;
    [|no_such_event Hin].
  apply elem_of_app in Hin as [Hin|Hin];
    [apply filter_check_validates in Hin; discriminate|].
  destruct (fst (validated_filters c _ _ w)) as [verr|] eqn:Hv;
    [no_such_event Hin|].
  apply list_elem_of_singleton in Hin. injection Hin as -> -> Hans.
  rewrite (Hrun h w eq_refl Hv), <- Hans. cbn [fst].
  destruct (Get_rows_scan_error newObjFunc (GetOptions.RowObjTransformFunc options)
              rows cols Hcols Hbad None) as (cols' & e & Hc & He & Hr).
  exists cols', e. repeat split; [done..|]. exists h. split; reflexivity.
Qed.

End Properties.

(** ** String coercion *)

(** One iteration of the loop on a string value: the key gains the
    coerced value when the record has the field and the string
    converts, and the output map is as it was otherwise. *)
Lemma StringToFieldValues_step_string (obj : Obj) (k s : string) (o : gmap string value) :
  StringToFieldValues_step obj k (VString s) o =
    Done (match FieldByName obj k ≫= (fun kind => coerce kind s) with
          | Some v => <[k := v]> o
          | None => o
          end).
Proof.
  unfold StringToFieldValues_step.
  destruct (FieldByName obj k) as [[]|]; cbn; try reflexivity.
  - destruct (strconv.ParseInt s); reflexivity.
  - destruct (strconv.Atoi s); reflexivity.
  - destruct (String.eqb s "true"); reflexivity.
Qed.

Lemma StringToFieldValues_strings (obj : Obj) (m : gmap string string) :
  StringToFieldValues obj (VString <$> m) = Done (CoerceStringMap obj m).
Proof.
  unfold StringToFieldValues, CoerceStringMap.
  rewrite map_fold_fmap.
  induction m as [|k s m Hk Hfold IH] using map_first_key_ind.
  - rewrite map_fold_empty, map_imap_empty. reflexivity.
  - rewrite map_fold_insert_first_key by assumption.
    rewrite IH. unfold compose.
    rewrite StringToFieldValues_step_string, map_imap_insert.
    destruct (FieldByName obj k ≫= _); [reflexivity|].
    f_equal. symmetry. apply delete_id. rewrite map_lookup_imap, Hk. reflexivity.
Qed.

(** C7. On a map of strings [StringToFieldValues] returns, without
    panicking, the map that holds for each key that names a field of
    the record the string converted by the kind of the field (parsed
    for the integer kinds, compared with "true" for a boolean, as it
    is for a string) and that has no entry for a key that names no
    field or whose string does not parse; on the example of the
    specification it holds Age 30 and Active true and nothing else. *)
Theorem StringToFieldValues_coerces :
  (∀ (obj : Obj) (m : gmap string string),
     ∃ o, StringToFieldValues obj (VString <$> m) = Done o
          ∧ o = CoerceStringMap obj m
          ∧ ∀ k, o !! k = (m !! k ≫= fun s =>
                           FieldByName obj k ≫= fun kind => coerce kind s))
  ∧ StringToFieldValues Sample.member
      (<["Age" := VString "30"]>
         (<["Active" := VString "true"]> {["Bogus" := VString "x"]}))
    = Done (<["Age" := VInt 30]> {["Active" := VBool true]}).
Proof.
  split.
  - intros obj m. exists (CoerceStringMap obj m).
    split; [apply StringToFieldValues_strings|]. split; [reflexivity|].
    intros k. unfold CoerceStringMap. apply map_lookup_imap.
  - vm_compute. reflexivity.
Qed.

(** ** The properties on the sample schema *)

Section Examples.

Import Sample.

Lemma Delete_unsaved_noop_witness :
  getSQLGenerator ctlOK ann = inl personSQL
  ∧ ID ann = 0
  ∧ Delete ctlOK ann (DeleteOptions.mk ∅) w0 = ((None, ann), w0).
Proof.
  split; [reflexivity|]. split; [reflexivity|].
  apply (Delete_unsaved_noop ctlOK ann (DeleteOptions.mk ∅) personSQL w0);
    reflexivity.
Defined.

Lemma Save_dispatch_witness :
  getSQLGenerator ctlOK ann = inl personSQL
  ∧ validator ctlOK ann ∅ = passes
  ∧ fst (Save ctlOK ann (SaveOptions.mk false) w0) = (None, person 42 "Ann" 30 true).
Proof.
  split; [reflexivity|]. split; [reflexivity|].
  destruct (Save_dispatch ctlOK ann (SaveOptions.mk false) personSQL ∅ w0
              eq_refl eq_refl) as [Hinsert _].
  destruct (Hinsert eq_refl) as (_ & _ & Hkey).
  apply (Hkey 42). reflexivity.
Defined.

Lemma Save_invalid_stops_witness :
  getSQLGenerator ctlInvalid ann = inl personSQL
  ∧ validator ctlInvalid ann ∅ = fails
  ∧ fst (Save ctlInvalid ann (SaveOptions.mk false) w0)
    = (Some (mkErr "Validate" (ErrValidation {["Name" := 1]})), ann)
  ∧ events (Save ctlInvalid ann (SaveOptions.mk false)) w0 = [EvValidate ann ∅ fails].
Proof.
  split; [reflexivity|]. split; [reflexivity|].
  destruct (Save_invalid_stops ctlInvalid ann (SaveOptions.mk false) personSQL
              {["Name" := 1]} w0 eq_refl eq_refl) as (Hres & Hev & _).
  split; [exact Hres|exact Hev].
Defined.

(** C5, the claim as stated fails: the validator reports the field
    Name of the record, the schema of the record does not resolve,
    and [Save] returns the error of the schema, not the fields. *)
Lemma Save_unresolved_not_validation_error :
  validator Script.ctlNoSchemaInvalid ann ∅ = fails
  ∧ Save Script.ctlNoSchemaInvalid ann (SaveOptions.mk false) w0
    = ((Some schemaError, ann), w0)
  ∧ schemaError ≠ mkErr "Validate" (ErrValidation {["Name" := 1]}).
Proof. split; [reflexivity|]. split; [reflexivity|discriminate]. Qed.

Lemma DeleteMultiple_cascade_iff_below_max_witness :
  let options := DeleteMultipleOptions.mk ∅ 0 ∅ in
  let rows := [[VInt64 7]; [VInt64 9]] in
  let run := events (DeleteMultiple ctlOK newPerson options) w0 in
  getSQLGenerator ctlOK (newPerson ()) = inl personSQL
  ∧ fst (conn_Query ctlOK "DELETE FROM persons RETURNING id" [] (conn w0)) = inr rows
  ∧ DeleteMultiple_rows rows [] = inr [7; 9]
  ∧ ((∃ o i n r, EvRunOnDelete o i n r ∈ run) ↔ (0 < 3)%Z)
  ∧ run = [EvQuery "DELETE FROM persons RETURNING id" [] (inr rows);
           EvRunOnDelete (newPerson ()) [7; 9] 0 None]
  ∧ fst (DeleteMultiple ctlOK newPerson options w0) = None.
Proof.
  intros options rows run.
  assert (DeleteMultiple_rows rows [] = inr [7; 9]) as Hids by reflexivity.
  split; [reflexivity|]. split; [reflexivity|]. split; [exact Hids|].
  destruct (DeleteMultiple_cascade_iff_below_max ctlOK newPerson options personSQL w0
              rows [7; 9] eq_refl (or_introl eq_refl) eq_refl Hids)
    as (Hiff & _ & Hrun & Hres & _).
  split; [exact Hiff|]. split; [exact Hrun|].
  apply Hres. reflexivity.
Defined.

(** C2, the claim as stated fails: the supplied depth is 0, the
    delete-returning-ids query fails, and [DeleteMultiple] returns the
    error of the query without invoking the cascade traversal. *)
Lemma DeleteMultiple_below_max_without_cascade :
  let options := DeleteMultipleOptions.mk ∅ 0 ∅ in
  (DeleteMultipleOptions.CascadeDeleteDepth options <? 3)%Z = true
  ∧ events (DeleteMultiple ctlDown newPerson options) w0
    = [EvQuery "DELETE FROM persons RETURNING id" [] (inl down)]
  ∧ fst (DeleteMultiple ctlDown newPerson options w0) = Some (DBQuery_failure down).
Proof. repeat split. Qed.

(** C3, the claim as stated fails: [Delete] of a record that was
    never saved succeeds and leaves its data fields as they were. *)
Lemma Delete_unsaved_keeps_fields :
  Delete ctlOK ann (DeleteOptions.mk ∅) w0 = ((None, ann), w0)
  ∧ ¬ is_zeroed ann.
Proof.
  split; [reflexivity|].
  intros [_ Hdata]. apply Forall_cons in Hdata as [Hname _]. discriminate Hname.
Qed.

Lemma Delete_success_zeroes_witness :
  ID saved ≠ 0
  ∧ Delete ctlOK saved (DeleteOptions.mk ∅) w0
    = ((None, person 0 "" 0 false),
       mkWorld 1%nat [EvExec "DELETE FROM persons WHERE id=$1" [VInt64 5] None;
                      EvRunOnDelete (person 0 "" 0 false) [5] 0 None])
  ∧ is_zeroed (person 0 "" 0 false).
Proof.
  assert (ID saved ≠ 0) as Hid by (vm_compute; discriminate).
  assert (Delete ctlOK saved (DeleteOptions.mk ∅) w0
          = ((None, person 0 "" 0 false),
             mkWorld 1%nat
               [EvExec "DELETE FROM persons WHERE id=$1" [VInt64 5] None;
                EvRunOnDelete (person 0 "" 0 false) [5] 0 None])) as Hrun
    by reflexivity.
  split; [exact Hid|]. split; [exact Hrun|].
  apply (Delete_success_zeroes ctlOK saved _ (DeleteOptions.mk ∅) w0 _ Hid Hrun).
Defined.

Lemma Load_no_rows_resets_witness :
  strconv.Atoi "7" = inr 7
  ∧ fst (conn_QueryRow ctlNoRows (GetQuerySelectById personSQL) [VInt64 7] (conn w0))
    = inl ErrNoRows
  ∧ fst (Load ctlNoRows saved "7" w0) = (None, person 0 "" 0 false)
  ∧ is_zeroed (person 0 "" 0 false).
Proof.
  split; [reflexivity|]. split; [reflexivity|].
  apply (Load_no_rows_resets ctlNoRows saved "7" 7 personSQL w0); reflexivity.
Defined.

Lemma Load_query_error_unwrapped_witness :
  fst (conn_QueryRow ctlDown (GetQuerySelectById personSQL) [VInt64 7] (conn w0))
    = inl down
  ∧ down ≠ ErrNoRows
  ∧ ∃ err, fst (Load ctlDown saved "7" w0) = (Some err, saved)
           ∧ Op err = "DBQuery"
           ∧ Unwrap (Err err) = None.
Proof.
  assert (down ≠ ErrNoRows) as Hne by discriminate.
  split; [reflexivity|]. split; [exact Hne|].
  apply (Load_query_error_unwrapped ctlDown saved "7" 7 personSQL down w0
           eq_refl eq_refl eq_refl Hne).
Defined.

(** C8 at a failing input: the database is unreachable, and the
    error [Load] returns does not wrap the error of the database. *)
Lemma Load_drops_database_error :
  fst (Load ctlDown saved "7" w0)
    = (Some (mkErr "DBQuery" (Errorf "Error executing DB query: " None)), saved)
  ∧ Unwrap (Errorf "Error executing DB query: " None) ≠ Some down.
Proof. split; [reflexivity|discriminate]. Qed.

(** C6, the claim as stated fails: when the schema of the record
    does not resolve, [UpdateMultiple] with an empty values map
    fails with the error of the schema, not with the missing-values
    error. *)
Lemma UpdateMultiple_unresolved_not_missing_values :
  UpdateMultiple ctlNoSchema newPerson ∅ (UpdateMultipleOptions.mk ∅ 0 false) w0
    = (Done (Some schemaError), w0)
  ∧ schemaError ≠ MissingValues.
Proof. split; [reflexivity|discriminate]. Qed.

Lemma UpdateMultiple_missing_values_witness :
  getSQLGenerator ctlOK (newPerson ()) = inl personSQL
  ∧ UpdateMultiple ctlOK newPerson ∅
      (UpdateMultipleOptions.mk {["Name" := VString "Ann"]} 0 true) w0
    = (Done (Some MissingValues), w0).
Proof.
  split; [reflexivity|].
  apply (UpdateMultiple_missing_values ctlOK newPerson _ personSQL w0).
  reflexivity.
Defined.

Lemma Get_scan_error_discards_witness :
  let options := GetOptions.mk [] 10 0 ∅ None in
  let rows := [[VInt64 1; VString "Bob"; VInt 41; VBool false]; [VString "oops"]] in
  EvQuery "SELECT id,name,age,active FROM persons" [] (inr rows)
    ∈ events (Get ctlBadRow newPerson options) w0
  ∧ [VString "oops"] ∈ rows
  ∧ fst (Scan [VString "oops"] (GetObjFieldInterfaces (newPerson ()) true)
           (newPerson ())) ≠ None
  ∧ ∃ e, fst (Get ctlBadRow newPerson options w0) = (None, Some (ScanError e)).
Proof.
  intros options rows.
  assert (EvQuery "SELECT id,name,age,active FROM persons" [] (inr rows)
            ∈ events (Get ctlBadRow newPerson options) w0) as Hin.
  { vm_compute. constructor. }
  assert ([VString "oops"] ∈ rows) as Hrow.
  { right. left. }
  assert (fst (Scan [VString "oops"] (GetObjFieldInterfaces (newPerson ()) true)
                 (newPerson ())) ≠ None) as Hbad.
  { vm_compute. discriminate. }
  split; [exact Hin|]. split; [exact Hrow|]. split; [exact Hbad|].
  destruct (Get_scan_error_discards ctlBadRow newPerson options w0 _ _ rows _
              Hin Hrow Hbad) as (_ & e & _ & _ & Hget & _).
  exists e. exact Hget.
Defined.

(** On a value that is not a string, for an integer or a boolean
    field, the type assertion panics. *)
Example StringToFieldValues_panics :
  StringToFieldValues member {["Age" := VInt 30]}
    = Panic "interface conversion: interface {} is not string".
Proof. vm_compute. reflexivity. Qed.

(** The first row of the sample select scans; only the second fails. *)
Example Get_first_row_scans :
  fst (Scan [VInt64 1; VString "Bob"; VInt 41; VBool false]
         (GetObjFieldInterfaces (newPerson ()) true) (newPerson ())) = None
  ∧ fst (Get ctlBadRow newPerson (GetOptions.mk [] 10 0 ∅ None) w0)
    = (None, Some (ScanError (ErrDriver "sql: expected destination arguments in Scan"))).
Proof. split; reflexivity. Qed.

End Examples.

(** ** Further properties of the operations *)

Section Further.

Context {DB : Type}.
Variable c : Controller DB.

Ltac run_ops :=
  unfold Save, Load, Delete, DeleteMultiple, UpdateMultiple, Get, GetCount,
    validated_filters, validated, Validate, runOnDelete,
    dbConn_Exec, dbConn_QueryRow, dbConn_Query, emit,
    mbind, M_bind, mret, M_ret in *.

Ltac absent H :=
  repeat (apply elem_of_cons in H as [H|H]; [discriminate H|]);
  apply elem_of_nil in H; destruct H.

(** X1. [Save] sends one statement when the schema resolves and the
    validator passes the record, and none otherwise. *)
Theorem Save_statement_count (obj : Obj) (options : SaveOptions.t) (w : World DB) :
  statements (events (Save c obj options) w) =
    match getSQLGenerator c obj, validator c obj ∅ with
    | inl _, (true, _, None) => 1%nat
    | _, _ => 0%nat
    end.
Proof.
  destruct (getSQLGenerator c obj) as [h|err] eqn:Hgen.
  2:{ rewrite (events_app _ w []); [reflexivity|].
      rewrite (Save_unresolved c _ _ _ _ Hgen). cbn. by rewrite app_nil_r. }
  destruct (validator c obj ∅) as [[b inv] [e1|]] eqn:Hval.
  { erewrite events_app
      by (rewrite (Save_validator_failed c _ options _ _ _ _ w Hgen Hval); reflexivity).
    by destruct b. }
  destruct b.
  - destruct (decide (ID obj = 0)) as [Hid|Hid];
      [|destruct (SaveOptions.NoInsert options) eqn:Hno].
    + pose proof (Save_insert c _ options _ _ w Hgen Hval Hid) as E. cbv zeta in E.
      erewrite events_app by (rewrite E; destruct (Row_Scan _ _ _); reflexivity).
      reflexivity.
    + pose proof (Save_update c _ options _ _ w Hgen Hval Hid Hno) as E. cbv zeta in E.
      erewrite events_app by (rewrite E; reflexivity). reflexivity.
    + pose proof (Save_upsert c _ options _ _ w Hgen Hval Hid Hno) as E. cbv zeta in E.
      erewrite events_app by (rewrite E; reflexivity). reflexivity.
  - erewrite events_app
      by (rewrite (Save_rejected c _ options _ _ w Hgen Hval); reflexivity).
    reflexivity.
Qed.

(** What [convertAssign] hands to a destination has its kind. *)
Lemma convertAssign_kind (k : Kind) (src v : value) :
  convertAssign k src = inr v → kind_of v = k.
Proof.
  destruct k, src; cbn;
    repeat match goal with
           | |- context [match ?x with _ => _ end] => destruct x
           end;
    try discriminate; by intros [= <-].
Qed.

(** A column of the kind of the destination is assigned as it is. *)
Lemma convertAssign_same_kind (k : Kind) (v : value) :
  kind_of v = k → convertAssign k v = inr v.
Proof. intros <-. by destruct v. Qed.

(** The scan of the generated key: a row of one column that converts
    to an int64 is stored in the identity, anything else is an error
    that writes nothing. *)
Lemma Row_Scan_identity (row : error + list value) (obj : Obj) :
  (∃ cv key, row = inr [cv]
             ∧ convertAssign Int64 cv = inr (VInt64 key)
             ∧ Row_Scan row [GetObjIDInterface obj] obj
               = (None, mkObj (ObjType obj) key (Data obj)))
  ∨ (∃ e, Row_Scan row [GetObjIDInterface obj] obj = (Some e, obj)
          ∧ (∀ e', row = inl e' → e = e')).
Proof.
  destruct row as [e|cols].
  { right. exists e. split; [reflexivity|]. by intros e' [= ->]. }
  destruct cols as [|cv [|cv' cols]].
  - right. eexists. split; [reflexivity|discriminate].
  - change (Row_Scan (inr [cv]) [GetObjIDInterface obj] obj)
      with (match convertAssign Int64 cv with
            | inl e => (Some e, obj)
            | inr v => (None, store obj SlotID v)
            end).
    destruct (convertAssign Int64 cv) as [e|v] eqn:Hcv.
    + right. eexists. split; [reflexivity|discriminate].
    + left. pose proof (convertAssign_kind _ _ _ Hcv) as Hk.
      destruct v as [key| | |]; try discriminate. by exists cv, key.
  - right. eexists. split; [reflexivity|discriminate].
Qed.

(** X2. [Save] never touches the type or the data fields of the
    record, and a record that has an identity is handed back as it
    was, whatever the validator and the database answer. *)
Theorem Save_keeps_data (obj : Obj) (options : SaveOptions.t) (w : World DB) :
  let obj' := snd (fst (Save c obj options w)) in
  ObjType obj' = ObjType obj
  ∧ Data obj' = Data obj
  ∧ (ID obj ≠ 0 → obj' = obj).
Proof.
  cbv zeta.
  destruct (getSQLGenerator c obj) as [h|err] eqn:Hgen.
  2:{ by rewrite (Save_unresolved c _ _ _ _ Hgen). }
  destruct (validator c obj ∅) as [[b inv] [e1|]] eqn:Hval.
  { by rewrite (Save_validator_failed c _ options _ _ _ _ w Hgen Hval). }
  destruct b.
  2:{ by rewrite (Save_rejected c _ options _ _ w Hgen Hval). }
  destruct (decide (ID obj = 0)) as [Hid|Hid];
    [|destruct (SaveOptions.NoInsert options) eqn:Hno].
  - rewrite (Save_insert c _ options _ _ w Hgen Hval Hid). cbv zeta.
    destruct (Row_Scan_identity
                (fst (conn_QueryRow c (GetQueryInsert h)
                        (deref obj (GetObjFieldInterfaces obj false)) (conn w))) obj)
      as [(cv & key & _ & _ & ->)|(e & -> & _)]; done.
  - by rewrite (Save_update c _ options _ _ w Hgen Hval Hid Hno).
  - by rewrite (Save_upsert c _ options _ _ w Hgen Hval Hid Hno).
Qed.


(** Scanning columns of the right kinds into the data fields, from
    field [length pre] on, replaces their values and nothing else. *)
Lemma Scan_columns_data (T : string) (id : Z) (pre rest : list (string * value))
    (vs : list value) :
  Forall2 (fun p v => kind_of v = kind_of (snd p)) rest vs →
  Scan_columns (SlotData <$> seq (length pre) (length rest)) vs (mkObj T id (pre ++ rest))
  = (None, mkObj T id (pre ++ zip (fst <$> rest) vs)).
Proof.
  intros H. revert pre.
  induction H as [|p v rest vs Hk H IH]; intros pre; [reflexivity|].
  cbn [length seq fmap list_fmap Scan_columns slot_kind Data].
  rewrite list_lookup_middle by reflexivity. cbn [fmap option_fmap option_map snd].
  rewrite (convertAssign_same_kind _ _ Hk).
  cbn [store ObjType ID Data].
  replace (length pre) with (length pre + 0)%nat at 2 by lia.
  rewrite alter_app_r. cbn [alter list_alter].
  specialize (IH (pre ++ [(fst p, v)])).
  rewrite length_app in IH. cbn [length] in IH.
  replace (length pre + 1)%nat with (S (length pre)) in IH by lia.
  rewrite <- !app_assoc in IH. exact IH.
Qed.

(** A row that fits the record scans, and binds the record to it. *)
Lemma Scan_fits (obj : Obj) (id : Z) (vs : list value) :
  fits obj vs →
  Scan (VInt64 id :: vs) (GetObjFieldInterfaces obj true) obj = (None, bound obj id vs).
Proof.
  intros H. unfold Scan, GetObjFieldInterfaces.
  assert (length (Data obj) = length vs) as Hlen by exact (Forall2_length _ _ _ H).
  cbn [app length]. rewrite length_fmap, length_seq, Hlen, Nat.eqb_refl.
  cbn [Scan_columns slot_kind convertAssign].
  cbn [store]. rewrite <- Hlen.
  apply (Scan_columns_data (ObjType obj) id [] (Data obj) vs H).
Qed.

(** A numeral is not negative. *)
Lemma digits_nonneg (maxVal : Z) (s : string) (acc m : Z) :
  (0 ≤ acc)%Z → strconv.digits maxVal s acc = strconv.Magnitude m → (0 ≤ m)%Z.
Proof.
  revert acc. induction s as [|a s IH]; intros acc Hacc; cbn.
  - by intros [= <-].
  - unfold strconv.digit.
    destruct ((48 <=? Z.of_nat (nat_of_ascii a))
              && (Z.of_nat (nat_of_ascii a) <=? 57))%Z eqn:Hr; [|discriminate].
    apply andb_prop in Hr as [H1 H2]. apply Z.leb_le in H1.
    destruct (maxVal <? _)%Z; [discriminate|]. apply IH. lia.
Qed.

(** What parses at 64 bits fits in 64 bits. *)
Lemma ParseIntAs_64_range (fn s : string) (n : Z) :
  strconv.ParseIntAs fn 64 s = inr n → (- 2 ^ 63 ≤ n < 2 ^ 63)%Z.
Proof.
  unfold strconv.ParseIntAs.
  destruct (strconv.literal s) as [[neg body]|]; [|discriminate].
  destruct (strconv.digits _ body 0) as [| |un] eqn:Hd; [discriminate..|].
  pose proof (digits_nonneg _ _ _ _ (Z.le_refl 0) Hd) as Hun.
  change (2 ^ (64 - 1))%Z with (2 ^ 63)%Z.
  destruct neg.
  - destruct (un <=? 2 ^ 63)%Z eqn:Hr; [|discriminate].
    apply Z.leb_le in Hr. intros [= <-]. lia.
  - destruct (un <? 2 ^ 63)%Z eqn:Hr; [|discriminate].
    apply Z.ltb_lt in Hr. intros [= <-]. lia.
Qed.

(** X4. [Load] asks the database at most once: not at all when the
    id does not parse or the schema does not resolve, and otherwise
    for the one row whose identity is the parsed id, an int64. On an
    id that does not parse it returns the error of the conversion
    under "IDToInt" and touches nothing, even before it looks for the
    schema. *)
Theorem Load_single_query (obj : Obj) (id : string) (w : World DB) :
  events (Load c obj id) w =
    match strconv.Atoi id, getSQLGenerator c obj with
    | inr n, inl h =>
        [EvQueryRow (GetQuerySelectById h) [VInt64 n]
           (fst (conn_QueryRow c (GetQuerySelectById h) [VInt64 n] (conn w)))]
    | _, _ => []
    end
  ∧ (∀ n, strconv.Atoi id = inr n → (- 2 ^ 63 ≤ n < 2 ^ 63)%Z)
  ∧ (∀ e, strconv.Atoi id = inl e →
          Load c obj id w = ((Some (IDToInt_failure e), obj), w)).
Proof.
  split; [|split].
  - apply events_app.
    destruct (strconv.Atoi id) as [e|n] eqn:Hid.
    { unfold Load. rewrite Hid. cbn. by rewrite app_nil_r. }
    destruct (getSQLGenerator c obj) as [h|err] eqn:Hgen.
    + rewrite (Load_run c _ _ _ _ w Hid Hgen). reflexivity.
    + unfold Load. rewrite Hid, Hgen. cbn. by rewrite app_nil_r.
  - intros n. apply ParseIntAs_64_range.
  - intros e Hid. unfold Load. rewrite Hid. reflexivity.
Qed.

(** X5. When the id parses, the schema resolves and the database
    answers with a row that fits the record (the identity, then one
    column of the right kind per data field), [Load] returns success
    and the record holds that row: the identity of the row and its
    columns in the data fields, names and order kept. *)
Theorem Load_binds_row (obj : Obj) (id : string) (n : Z) (h : StructSQL)
    (id' : Z) (vs : list value) (w : World DB) :
  strconv.Atoi id = inr n →
  getSQLGenerator c obj = inl h →
  fst (conn_QueryRow c (GetQuerySelectById h) [VInt64 n] (conn w)) = inr (VInt64 id' :: vs) →
  fits obj vs →
  fst (Load c obj id w) = (None, bound obj id' vs).
Proof.
  intros Hid Hgen Hrow Hfit.
  rewrite (Load_run c _ _ _ _ w Hid Hgen). cbv zeta. rewrite Hrow.
  cbn [Row_Scan fst]. rewrite (Scan_fits _ _ _ Hfit). reflexivity.
Qed.

(** X6. [Delete] of a record that has an identity sends the
    delete-by-identity statement with that identity. If the statement
    fails, the error is wrapped under "DBQuery", the record is handed
    back as it was and the cascade is not started. If it succeeds, the
    record is reset, the cascade is started on the reset record with
    the one identity at depth 0, and what the cascade returns is what
    [Delete] returns: a failure of the cascade reaches the caller
    after the row is gone and the record is zeroed. *)
Theorem Delete_outcome (obj : Obj) (options : DeleteOptions.t) (h : StructSQL)
    (w : World DB) :
  getSQLGenerator c obj = inl h →
  ID obj ≠ 0 →
  let q := GetQueryDeleteById h in
  let ans := conn_Exec c q [VInt64 (ID obj)] (conn w) in
  let cas := cascade c (ResetFields obj) (DeleteOptions.Constructors options)
               (tagName c) [ID obj] 0 (snd ans) in
  Delete c obj options w =
    match fst ans with
    | Some e =>
        ((Some (DBQuery_failure e), obj),
         mkWorld (snd ans) (trace w ++ [EvExec q [VInt64 (ID obj)] (Some e)]))
    | None =>
        ((fst cas, ResetFields obj),
         mkWorld (snd cas)
           (trace w ++ [EvExec q [VInt64 (ID obj)] None;
                        EvRunOnDelete (ResetFields obj) [ID obj] 0 (fst cas)]))
    end.
Proof.
  intros Hgen Hid q ans cas. apply Z.eqb_neq in Hid.
  run_ops. unfold GetObjIDValue. rewrite Hgen, Hid.
  change (deref obj [GetObjIDInterface obj]) with [VInt64 (ID obj)].
  fold q ans. subst cas. destruct ans as [[e|] d]; cbn [fst snd conn trace].
  - reflexivity.
  - destruct (cascade c _ _ _ _ _ _) as [[e3|] d']; cbn [fst snd];
      rewrite <- app_assoc; reflexivity.
Qed.

(** X7. The row loop of [DeleteMultiple] collects one identity per
    row, in the order of the rows, after the ones collected before.
    Rows of one int64 column each are collected as they are, and a
    column that is a string holding a decimal numeral counts as that
    number; when the loop succeeds every row had exactly one column. *)
Theorem DeleteMultiple_rows_collects (rows : list (list value)) (acc : list Z) :
  (∀ new,
     Forall2 (fun cols id =>
                cols = [VInt64 id]
                ∨ ∃ s, cols = [VString s] ∧ strconv.ParseInt s = inr id) rows new →
     DeleteMultiple_rows rows acc = inr (acc ++ new))
  ∧ (∀ ids, DeleteMultiple_rows rows acc = inr ids →
            ∃ new, ids = acc ++ new
                   ∧ length new = length rows
                   ∧ Forall (fun cols => length cols = 1%nat) rows).
Proof.
  split.
  - intros new H. revert acc.
    induction H as [|cols id rows new Hc H IH]; intros acc; cbn [DeleteMultiple_rows].
    + by rewrite app_nil_r.
    + assert (Scan_int64 cols = inr id) as ->.
      { destruct Hc as [->|(s & -> & Hs)]; [reflexivity|].
        unfold strconv.ParseInt in Hs. cbn. by rewrite Hs. }
      rewrite IH. by rewrite <- app_assoc.
  - revert acc. induction rows as [|cols rows IH]; intros acc ids;
      cbn [DeleteMultiple_rows].
    + intros [= <-]. exists []. by rewrite app_nil_r.
    + destruct (Scan_int64 cols) as [e|id] eqn:Hc; [discriminate|].
      intros H. apply IH in H as (new & -> & Hlen & Hall).
      exists (id :: new). rewrite <- app_assoc. split; [reflexivity|].
      split; [cbn; by rewrite Hlen|].
      constructor; [|exact Hall].
      destruct cols as [|cv [|cv' cols]]; [discriminate|reflexivity|discriminate].
Qed.

(** [h.GetQuerySelectCount], the one method [GetCount] needs beyond
    those of the other operations. *)
Variable GetQuerySelectCount : StructSQL → gmap string value → string.

Lemma size_pos (m : gmap string value) : m ≠ ∅ → (0 <? size m)%nat = true.
Proof.
  intros Hne. apply Nat.ltb_lt.
  destruct (size m) eqn:Hs; [|lia]. by apply map_size_empty_iff in Hs.
Qed.

(** X8. Filters that the validator rejects stop [DeleteMultiple],
    [Get] and [GetCount] before any statement: each returns the
    rejected fields under "ValidateFilters", with the nil slice or the
    count 0, and the database is as it was. *)
Theorem rejected_filters_stop (newObjFunc : unit → Obj) (filters : gmap string value)
    (h : StructSQL) (inv : gmap string Z) (w : World DB) :
  getSQLGenerator c (newObjFunc ()) = inl h →
  filters ≠ ∅ →
  validator c (newObjFunc ()) filters = (false, inv, None) →
  let err := mkErr "ValidateFilters" (ErrValidation inv) in
  let w' := mkWorld (conn w)
              (trace w ++ [EvValidate (newObjFunc ()) filters (false, inv, None)]) in
  (∀ depth ctors,
     DeleteMultiple c newObjFunc (DeleteMultipleOptions.mk filters depth ctors) w
     = (Some err, w'))
  ∧ (∀ order limit offset transform,
       Get c newObjFunc (GetOptions.mk order limit offset filters transform) w
       = ((None, Some err), w'))
  ∧ GetCount c GetQuerySelectCount newObjFunc (GetCountOptions.mk filters) w
    = ((0, Some err), w').
Proof.
  intros Hgen Hne Hval err w'. apply size_pos in Hne.
  repeat split; intros; run_ops;
    cbn [DeleteMultipleOptions.Filters GetOptions.Filters GetCountOptions.Filters];
    rewrite Hgen, Hne, Hval; reflexivity.
Qed.

(** The check of a filter map: nothing for the empty map, one
    question to the validator otherwise. *)
Lemma filter_check_cases (obj : Obj) (m : gmap string value) :
  (m = ∅ ∧ filter_check c obj m = [])
  ∨ (m ≠ ∅ ∧ filter_check c obj m = [EvValidate obj m (validator c obj m)]).
Proof.
  unfold filter_check. destruct (0 <? size m)%nat eqn:Hs.
  - right. split; [|reflexivity]. intros ->. by rewrite map_size_empty in Hs.
  - left. split; [|reflexivity]. apply Nat.ltb_ge in Hs.
    apply map_size_empty_iff. lia.
Qed.

(** No event of [DeleteMultiple] after the filter check is a question
    to the validator. *)
Ltac after_check H :=
  destruct (fst (validated_filters c _ _ _)); [absent H|];
  apply elem_of_cons in H as [H|H]; [discriminate|];
  destruct (fst (conn_Query c _ _ _)) as [|?rows]; [absent H|];
  destruct (DeleteMultiple_rows _ []); [absent H|];
  destruct (_ <? 3)%Z; absent H.

(** X9. [DeleteMultiple] and [Get] consult the validator exactly when
    the schema resolves and the filter map is not empty, and then
    about that map: an empty or nil filter map is never validated. *)
Theorem filters_validated_iff_present (newObjFunc : unit → Obj)
    (dopts : DeleteMultipleOptions.t) (gopts : GetOptions.t) (w : World DB) :
  let resolves := ∃ h, getSQLGenerator c (newObjFunc ()) = inl h in
  ((∃ o m r, EvValidate o m r ∈ events (DeleteMultiple c newObjFunc dopts) w)
   ↔ resolves ∧ DeleteMultipleOptions.Filters dopts ≠ ∅)
  ∧ (∀ o m r, EvValidate o m r ∈ events (DeleteMultiple c newObjFunc dopts) w →
              o = newObjFunc () ∧ m = DeleteMultipleOptions.Filters dopts)
  ∧ ((∃ o m r, EvValidate o m r ∈ events (Get c newObjFunc gopts) w)
     ↔ resolves ∧ GetOptions.Filters gopts ≠ ∅)
  ∧ (∀ o m r, EvValidate o m r ∈ events (Get c newObjFunc gopts) w →
              o = newObjFunc () ∧ m = GetOptions.Filters gopts).
Proof.
  intros resolves. subst resolves.
  rewrite DeleteMultiple_events, Get_events. cbv zeta.
  destruct (getSQLGenerator c (newObjFunc ())) as [h|err].
  2:{ split; [|split; [|split]].
      - split; [intros (o & m & r & H); absent H|by intros [[h' [=]] _]].
      - intros o m r H. absent H.
      - split; [intros (o & m & r & H); absent H|by intros [[h' [=]] _]].
      - intros o m r H. absent H. }
  split; [split; [intros (o & m & r & H); split|]|
          split; [intros o m r H; split|
                  split; [split; [intros (o & m & r & H); split|]|
                          intros o m r H; split]]].
  - eauto.
  - destruct (filter_check_cases (newObjFunc ()) (DeleteMultipleOptions.Filters dopts))
      as [[Hm E]|[Hm E]]; [|exact Hm]. rewrite E in H. cbn [app] in H.
    after_check H.
  - intros [_ Hne].
    destruct (filter_check_cases (newObjFunc ()) (DeleteMultipleOptions.Filters dopts))
      as [[Hm E]|[Hm E]]; [done|]. rewrite E.
    do 3 eexists. apply elem_of_cons. by left.
  - destruct (filter_check_cases (newObjFunc ()) (DeleteMultipleOptions.Filters dopts))
      as [[Hm E]|[Hm E]]; rewrite E in H; cbn [app] in H.
    + after_check H.
    + apply elem_of_cons in H as [H|H]; [by injection H|].
      after_check H.
  - destruct (filter_check_cases (newObjFunc ()) (DeleteMultipleOptions.Filters dopts))
      as [[Hm E]|[Hm E]]; rewrite E in H; cbn [app] in H.
    + after_check H.
    + apply elem_of_cons in H as [H|H]; [by injection H|].
      after_check H.
  - eauto.
  - destruct (filter_check_cases (newObjFunc ()) (GetOptions.Filters gopts))
      as [[Hm E]|[Hm E]]; [|exact Hm]. rewrite E in H. cbn [app] in H.
    destruct (fst (validated_filters c _ _ w)); absent H.
  - intros [_ Hne].
    destruct (filter_check_cases (newObjFunc ()) (GetOptions.Filters gopts))
      as [[Hm E]|[Hm E]]; [done|]. rewrite E.
    do 3 eexists. apply elem_of_cons. by left.
  - destruct (filter_check_cases (newObjFunc ()) (GetOptions.Filters gopts))
      as [[Hm E]|[Hm E]]; rewrite E in H; cbn [app] in H.
    + destruct (fst (validated_filters c _ _ w)); absent H.
    + apply elem_of_cons in H as [H|H]; [by injection H|].
      destruct (fst (validated_filters c _ _ w)); absent H.
  - destruct (filter_check_cases (newObjFunc ()) (GetOptions.Filters gopts))
      as [[Hm E]|[Hm E]]; rewrite E in H; cbn [app] in H.
    + destruct (fst (validated_filters c _ _ w)); absent H.
    + apply elem_of_cons in H as [H|H]; [by injection H|].
      destruct (fst (validated_filters c _ _ w)); absent H.
Qed.

(** What [DeleteMultiple] returns, case by case. *)
Lemma DeleteMultiple_result (newObjFunc : unit → Obj)
    (options : DeleteMultipleOptions.t) (w : World DB) :
  let obj := newObjFunc () in
  let filters := DeleteMultipleOptions.Filters options in
  let depth := DeleteMultipleOptions.CascadeDeleteDepth options in
  fst (DeleteMultiple c newObjFunc options w) =
    match getSQLGenerator c obj with
    | inr err => Some err
    | inl h =>
        let ans := conn_Query c (GetQueryDeleteReturningID h filters)
                     (GetFiltersInterfaces c filters) (conn w) in
        match fst (validated_filters c obj filters w) with
        | Some err => Some err
        | None =>
            match fst ans with
            | inl err2 => Some (DBQuery_failure err2)
            | inr rows =>
                match DeleteMultiple_rows rows [] with
                | inl err => Some err
                | inr ids =>
                    if (depth <? 3)%Z
                    then fst (cascade c obj (DeleteMultipleOptions.Constructors options)
                                (tagName c) ids depth (snd ans))
                    else None
                end
            end
        end
    end.
Proof.
  intros obj filters depth. unfold DeleteMultiple. fold obj filters depth.
  destruct (getSQLGenerator c obj) as [h|err]; [|reflexivity].
  unfold mbind at 1, M_bind at 1.
  pose proof (validated_filters_world c obj filters w) as Hw.
  destruct (validated_filters c obj filters w) as [verr w1].
  cbn [fst snd] in *. subst w1. destruct verr as [err|]; [reflexivity|].
  unfold mbind, M_bind, dbConn_Query, runOnDelete, emit, mret, M_ret.
  cbn [conn trace]. cbv zeta.
  destruct (conn_Query c _ _ _) as [[err2|rows] d]; cbn [fst snd]; [reflexivity|].
  destruct (DeleteMultiple_rows rows []) as [err|ids]; [reflexivity|].
  destruct (depth <? 3)%Z; [|reflexivity]. cbn [conn trace].
  destruct (cascade c _ _ _ _ _ _) as [[e3|] d']; reflexivity.
Qed.

(** X10. When the delete-returning-ids query of [DeleteMultiple]
    fails, or returns a row that does not scan to an identity,
    [DeleteMultiple] returns that failure (the error of the query
    wrapped under "DBQuery", a scan error under "DBQueryRowsScan") and
    the cascade is not started, whatever the depth; in the second case
    the rows are already deleted. *)
Theorem DeleteMultiple_failure_skips_cascade (newObjFunc : unit → Obj)
    (options : DeleteMultipleOptions.t) (w : World DB)
    (q : string) (args : list value) (res : error + list (list value)) :
  let run := events (DeleteMultiple c newObjFunc options) w in
  EvQuery q args res ∈ run →
  (∀ rows ids, res = inr rows → DeleteMultiple_rows rows [] ≠ inr ids) →
  (∀ o i n r, EvRunOnDelete o i n r ∉ run)
  ∧ ∃ err, fst (DeleteMultiple c newObjFunc options w) = Some err
           ∧ match res with
             | inl e => err = DBQuery_failure e ∧ Unwrap (Err err) = Some e
             | inr _ => Op err = "DBQueryRowsScan"
             end.
Proof.
  intros run Hin Hbad. subst run.
  rewrite DeleteMultiple_result, DeleteMultiple_events in *. cbv zeta in *.
  destruct (getSQLGenerator c (newObjFunc ())) as [h|err]; [|absent Hin].
  apply elem_of_app in Hin as [Hin|Hin];
    [apply (filter_check_validates c) in Hin; discriminate|].
  destruct (fst (validated_filters c _ _ w)) as [verr|]; [absent Hin|].
  assert (res = fst (conn_Query c
                       (GetQueryDeleteReturningID h (DeleteMultipleOptions.Filters options))
                       (GetFiltersInterfaces c (DeleteMultipleOptions.Filters options))
                       (conn w))) as Hres.
  { apply elem_of_cons in Hin as [Hin|Hin]; [by injection Hin|].
    destruct (fst (conn_Query c _ _ _)) as [|rows]; [absent Hin|].
    destruct (DeleteMultiple_rows rows []); [absent Hin|].
    destruct (_ <? 3)%Z; absent Hin. }
  rewrite <- Hres. clear Hin Hres.
  assert (∀ (o : Obj) (i : list Z) (n : Z) (r : option ErrController)
            (l : list Event),
            (∀ e, e ∈ l → ∃ q' a' r', e = EvQuery q' a' r') →
            EvRunOnDelete o i n r
            ∉ filter_check c (newObjFunc ()) (DeleteMultipleOptions.Filters options) ++ l)
    as Hnone.
  { intros o i n r l Hl H. apply elem_of_app in H as [H|H].
    - apply (filter_check_validates c) in H. discriminate.
    - destruct (Hl _ H) as (? & ? & ? & [=]). }
  destruct res as [e|rows].
  - split; [|by eexists].
    intros o i n r. apply Hnone. intros e' He'.
    apply list_elem_of_singleton in He'. eauto.
  - destruct (DeleteMultiple_rows rows []) as [err|ids] eqn:Hrows;
      [|by destruct (Hbad rows ids eq_refl)].
    split.
    + intros o i n r. apply Hnone. intros e' He'.
      apply list_elem_of_singleton in He'. eauto.
    + exists err. split; [reflexivity|].
      clear -Hrows. revert Hrows. generalize (@nil Z).
      induction rows as [|cols rows IH]; intros acc; cbn [DeleteMultiple_rows];
        [discriminate|].
      destruct (Scan_int64 cols); [by intros [= <-]|apply IH].
Qed.

(** One iteration of the loop of [StringToFieldValues], any value
    allowed: a panic when a string is asserted and not there, the
    coerced value under the key otherwise. *)
Lemma StringToFieldValues_step_any (obj : Obj) (k : string) (v : value)
    (o : gmap string value) :
  StringToFieldValues_step obj k v o =
    if not_a_string obj k v then Panic assertion_panic
    else Done (match coerce_value obj k v with
               | Some v' => <[k := v']> o
               | None => o
               end).
Proof.
  unfold StringToFieldValues_step, not_a_string, coerce_value.
  destruct (FieldByName obj k) as [[]|]; [..|reflexivity];
    destruct v as [n|n|s|b]; cbn; try reflexivity.
  - destruct (strconv.ParseInt s); reflexivity.
  - destruct (strconv.Atoi s); reflexivity.
  - destruct (String.eqb s "true"); reflexivity.
Qed.

Lemma StringToFieldValues_any (obj : Obj) (values : gmap string value) :
  StringToFieldValues obj values =
    if decide (map_Forall (fun k v => not_a_string obj k v = false) values)
    then Done (map_imap (coerce_value obj) values)
    else Panic assertion_panic.
Proof.
  unfold StringToFieldValues.
  induction values as [|k v m Hk Hfirst IH] using map_first_key_ind.
  - rewrite map_fold_empty, map_imap_empty, decide_True; [done|].
    apply map_Forall_empty.
  - rewrite map_fold_insert_first_key by assumption. rewrite IH.
    destruct (decide (map_Forall _ m)) as [Hm|Hm].
    + rewrite StringToFieldValues_step_any.
      destruct (not_a_string obj k v) eqn:Hv.
      * rewrite decide_False; [done|].
        intros H. apply map_Forall_insert in H as [H _]; [|done]. congruence.
      * rewrite decide_True by (by apply map_Forall_insert).
        rewrite map_imap_insert. destruct (coerce_value obj k v); [done|].
        f_equal. symmetry. apply delete_id. by rewrite map_lookup_imap, Hk.
    + rewrite decide_False; [done|].
      intros H. apply map_Forall_insert in H as [_ H]; done.
Qed.

(** X11. [StringToFieldValues] on any values map. It panics exactly
    when some entry names an integer or boolean field and holds a
    value that is not a string. Otherwise it returns the map that has,
    under each key that names a field, the value of a string field as
    it came (string or not) and the parsed string of an integer or
    boolean field, and nothing under the other keys. *)
Theorem StringToFieldValues_panics_iff (obj : Obj) (values : gmap string value) :
  ((∃ msg, StringToFieldValues obj values = Panic msg)
   ↔ ∃ k v, values !! k = Some v ∧ not_a_string obj k v = true)
  ∧ (∀ o, StringToFieldValues obj values = Done o →
          ∀ k, o !! k = values !! k ≫= coerce_value obj k).
Proof.
  rewrite StringToFieldValues_any.
  destruct (decide (map_Forall _ values)) as [Hm|Hm].
  - split.
    + split; [by intros [msg [=]]|].
      intros (k & v & Hk & Hv). rewrite (Hm k v Hk) in Hv. discriminate.
    + intros o [= <-] k. apply map_lookup_imap.
  - split; [|discriminate].
    split; [intros _|by eauto].
    apply map_not_Forall in Hm; [|apply _].
    destruct Hm as (k & v & Hk & Hv). exists k, v. split; [done|].
    by destruct (not_a_string obj k v).
Qed.

(** X12. What [StringToFieldValues] returns on a map of strings is
    well typed: each entry comes from the entry of the input under the
    same key, names a field of the record and has the kind of that
    field; an integer lies in the 64-bit range, a string is the input
    string and a boolean tells whether the input was "true". *)
Theorem StringToFieldValues_well_typed (obj : Obj) (m : gmap string string)
    (o : gmap string value) (k : string) (v' : value) :
  StringToFieldValues obj (VString <$> m) = Done o →
  o !! k = Some v' →
  ∃ s, m !! k = Some s
       ∧ FieldByName obj k = Some (kind_of v')
       ∧ match v' with
         | VInt64 n | VInt n => (- 2 ^ 63 ≤ n < 2 ^ 63)%Z
         | VString s' => s' = s
         | VBool b => b = String.eqb s "true"
         end.
Proof.
  rewrite StringToFieldValues_strings. intros [= <-].
  unfold CoerceStringMap. rewrite map_lookup_imap.
  destruct (m !! k) as [s|]; [|discriminate]. cbn.
  destruct (FieldByName obj k) as [[]|]; [..|discriminate]; cbn.
  - destruct (strconv.ParseInt s) as [|n] eqn:Hp; [discriminate|].
    intros [= <-]. exists s. split; [done|]. split; [done|].
    exact (ParseIntAs_64_range _ _ _ Hp).
  - destruct (strconv.Atoi s) as [|n] eqn:Hp; [discriminate|].
    intros [= <-]. exists s. split; [done|]. split; [done|].
    exact (ParseIntAs_64_range _ _ _ Hp).
  - intros [= <-]. by exists s.
  - intros [= <-]. by exists s.
Qed.

(** The answer of the filter check does not depend on the database. *)
Lemma validated_filters_answer (obj : Obj) (m : gmap string value) (w w' : World DB) :
  fst (validated_filters c obj m w) = fst (validated_filters c obj m w').
Proof.
  run_ops. destruct (0 <? size m)%nat; [|reflexivity].
  destruct (validator c obj m) as [[b inv] [e1|]]; [|destruct b]; reflexivity.
Qed.

(** [UpdateMultiple] once the schema has resolved, the values map is
    not empty and the conversion, when asked for, has returned. *)
Lemma UpdateMultiple_run (newObjFunc : unit → Obj) (values values' : gmap string value)
    (options : UpdateMultipleOptions.t) (h : StructSQL) (w : World DB) :
  let obj := newObjFunc () in
  let filters := UpdateMultipleOptions.Filters options in
  let q := GetQueryUpdate h values' filters in
  let args := GetFiltersInterfaces c values' ++ GetFiltersInterfaces c filters in
  let ans := conn_Exec c q args (conn w) in
  let asked := EvValidate obj values' (validator c obj values') in
  getSQLGenerator c obj = inl h →
  values ≠ ∅ →
  (if UpdateMultipleOptions.ConvertValuesFromString options
   then StringToFieldValues obj values else Done values) = Done values' →
  UpdateMultiple c newObjFunc values options w =
    match validator c obj values' with
    | (_, _, Some e1) =>
        (Done (Some (mkErr "ValidateValues"
                       (Errorf "Error when trying to validate values: " (Some e1)))),
         mkWorld (conn w) (trace w ++ [asked]))
    | (false, inv, None) =>
        (Done (Some (mkErr "ValidateValues" (ErrValidation inv))),
         mkWorld (conn w) (trace w ++ [asked]))
    | (true, _, None) =>
        match fst (validated_filters c obj filters w) with
        | Some err =>
            (Done (Some err),
             mkWorld (conn w) (trace w ++ asked :: filter_check c obj filters))
        | None =>
            (Done (DBQuery_failure <$> fst ans),
             mkWorld (snd ans)
               (trace w ++ asked :: filter_check c obj filters
                        ++ [EvExec q args (fst ans)]))
        end
    end.
Proof.
  intros obj filters q args ans asked Hgen Hne Hconv.
  unfold UpdateMultiple. fold obj. rewrite Hgen.
  assert ((size values <? 1)%nat = false) as ->.
  { apply Nat.ltb_ge. apply map_size_non_empty_iff in Hne. lia. }
  rewrite Hconv. fold filters. subst asked.
  unfold validated at 1, Validate, emit, mbind at 1, M_bind at 1,
    mbind at 1, M_bind at 1.
  destruct (validator c obj values') as [[b inv] [e1|]] eqn:Hval; [by destruct b|].
  destruct b; [|reflexivity].
  cbn [negb]. unfold mret at 1, M_ret at 1, mbind at 1, M_bind at 1.
  set (w1 := mkWorld (conn w) (trace w ++ [EvValidate obj values' (true, inv, None)])).
  rewrite (validated_filters_answer obj filters w w1).
  pose proof (validated_filters_world c obj filters w1) as Hw.
  destruct (validated_filters c obj filters w1) as [ferr w2].
  cbn [fst snd] in *. subst w2. subst w1. cbn [conn trace].
  destruct ferr as [err|]; [by rewrite <- app_assoc|].
  unfold mbind, M_bind, dbConn_Exec, emit, mret, M_ret. cbn [conn trace].
  fold q args ans. destruct ans as [[e2|] d]; cbn; by rewrite <- !app_assoc.
Qed.

(** X13. On the path of [UpdateMultiple] to its statement (schema
    resolved, values not empty, values and filters passed by the
    validator) the validator is asked about the values first and about
    the filters, when there are some, second; then one UPDATE is
    sent whose arguments are the bindings of the values followed by
    those of the filters, and a failure of it comes back wrapped under
    "DBQuery". With [ConvertValuesFromString] all of this is about
    the converted values. *)
Theorem UpdateMultiple_bindings (newObjFunc : unit → Obj)
    (values values' : gmap string value) (options : UpdateMultipleOptions.t)
    (h : StructSQL) (inv : gmap string Z) (w : World DB) :
  let obj := newObjFunc () in
  let filters := UpdateMultipleOptions.Filters options in
  let q := GetQueryUpdate h values' filters in
  let args := GetFiltersInterfaces c values' ++ GetFiltersInterfaces c filters in
  let ans := conn_Exec c q args (conn w) in
  getSQLGenerator c obj = inl h →
  values ≠ ∅ →
  (if UpdateMultipleOptions.ConvertValuesFromString options
   then StringToFieldValues obj values else Done values) = Done values' →
  validator c obj values' = (true, inv, None) →
  fst (validated_filters c obj filters w) = None →
  UpdateMultiple c newObjFunc values options w =
    (Done (DBQuery_failure <$> fst ans),
     mkWorld (snd ans)
       (trace w ++ EvValidate obj values' (true, inv, None)
                :: filter_check c obj filters ++ [EvExec q args (fst ans)])).
Proof.
  intros obj filters q args ans Hgen Hne Hconv Hval Hf.
  rewrite (UpdateMultiple_run _ _ _ _ _ w Hgen Hne Hconv).
  fold obj filters. rewrite Hval, Hf. reflexivity.
Qed.

(** X14. When the validator rejects the values of [UpdateMultiple],
    the call ends there with the rejected fields under
    "ValidateValues": the filters are not validated and no statement
    is sent, whether the filters would have passed or not. *)
Theorem UpdateMultiple_values_first (newObjFunc : unit → Obj)
    (values values' : gmap string value) (options : UpdateMultipleOptions.t)
    (h : StructSQL) (inv : gmap string Z) (w : World DB) :
  let obj := newObjFunc () in
  getSQLGenerator c obj = inl h →
  values ≠ ∅ →
  (if UpdateMultipleOptions.ConvertValuesFromString options
   then StringToFieldValues obj values else Done values) = Done values' →
  validator c obj values' = (false, inv, None) →
  UpdateMultiple c newObjFunc values options w =
    (Done (Some (mkErr "ValidateValues" (ErrValidation inv))),
     mkWorld (conn w) (trace w ++ [EvValidate obj values' (false, inv, None)])).
Proof.
  intros obj Hgen Hne Hconv Hval.
  rewrite (UpdateMultiple_run _ _ _ _ _ w Hgen Hne Hconv).
  fold obj. rewrite Hval. reflexivity.
Qed.

(** X15. The values map of [UpdateMultiple] is checked for emptiness
    before the conversion from strings, and the conversion drops the
    keys that name no field. So a values map that is not empty but
    names no field of the record gets past the check, the validator is
    asked about the empty map, and when it passes an UPDATE with no
    value is sent. *)
Theorem UpdateMultiple_converted_to_nothing (newObjFunc : unit → Obj)
    (values : gmap string value) (options : UpdateMultipleOptions.t)
    (h : StructSQL) (inv : gmap string Z) (w : World DB) :
  let obj := newObjFunc () in
  let filters := UpdateMultipleOptions.Filters options in
  let q := GetQueryUpdate h ∅ filters in
  let args := GetFiltersInterfaces c ∅ ++ GetFiltersInterfaces c filters in
  let ans := conn_Exec c q args (conn w) in
  getSQLGenerator c obj = inl h →
  values ≠ ∅ →
  (∀ k v, values !! k = Some v → FieldByName obj k = None) →
  UpdateMultipleOptions.ConvertValuesFromString options = true →
  validator c obj ∅ = (true, inv, None) →
  fst (validated_filters c obj filters w) = None →
  UpdateMultiple c newObjFunc values options w =
    (Done (DBQuery_failure <$> fst ans),
     mkWorld (snd ans)
       (trace w ++ EvValidate obj ∅ (true, inv, None)
                :: filter_check c obj filters ++ [EvExec q args (fst ans)])).
Proof.
  intros obj filters q args ans Hgen Hne Hnone Hconv Hval Hf.
  assert (StringToFieldValues obj values = Done ∅) as Hempty.
  { rewrite StringToFieldValues_any, decide_True.
    - f_equal. apply map_eq. intros k. rewrite map_lookup_imap, lookup_empty.
      destruct (values !! k) as [v|] eqn:Hk; [|reflexivity]. cbn.
      unfold coerce_value. by rewrite (Hnone k v Hk).
    - intros k v Hk. unfold not_a_string. by rewrite (Hnone k v Hk). }
  rewrite (UpdateMultiple_run _ values ∅ _ _ w Hgen Hne)
    by (rewrite Hconv; exact Hempty).
  fold obj filters. rewrite Hval, Hf. reflexivity.
Qed.

(** X16. With [ConvertValuesFromString], a value that is not a
    string under a key that names an integer or boolean field makes
    [UpdateMultiple] panic, once the schema has resolved, before the
    validator or the database is asked anything. *)
Theorem UpdateMultiple_panics (newObjFunc : unit → Obj)
    (values : gmap string value) (options : UpdateMultipleOptions.t)
    (h : StructSQL) (k : string) (v : value) (w : World DB) :
  getSQLGenerator c (newObjFunc ()) = inl h →
  UpdateMultipleOptions.ConvertValuesFromString options = true →
  values !! k = Some v →
  not_a_string (newObjFunc ()) k v = true →
  UpdateMultiple c newObjFunc values options w = (Panic assertion_panic, w).
Proof.
  intros Hgen Hconv Hk Hv. unfold UpdateMultiple. rewrite Hgen, Hconv.
  assert ((size values <? 1)%nat = false) as ->.
  { apply Nat.ltb_ge. assert (values ≠ ∅) as Hne by (intros ->; by rewrite lookup_empty in Hk).
    apply map_size_non_empty_iff in Hne. lia. }
  rewrite StringToFieldValues_any, decide_False; [reflexivity|].
  intros H. rewrite (H k v Hk) in Hv. discriminate.
Qed.

(** The loop of [Get] on rows that all scan. *)
Lemma Get_rows_all (newObjFunc : unit → Obj) (transform : option (Obj → any))
    (rows : list (list value)) (v : slice any) :
  Forall (fun cols =>
            fst (Scan cols (GetObjFieldInterfaces (newObjFunc ()) true) (newObjFunc ()))
            = None) rows →
  Get_rows newObjFunc transform rows v =
    (match rows with
     | [] => v
     | _ => Some (default [] v ++ (row_element newObjFunc transform <$> rows))
     end, None).
Proof.
  intros H. revert v. induction H as [|cols rows Hcols H IH]; intros v; [reflexivity|].
  cbn [Get_rows]. rewrite fmap_cons.
  assert (row_element newObjFunc transform cols
          = match transform with
            | Some f =>
                f (snd (Scan cols (GetObjFieldInterfaces (newObjFunc ()) true)
                          (newObjFunc ())))
            | None =>
                AnyObj (snd (Scan cols (GetObjFieldInterfaces (newObjFunc ()) true)
                               (newObjFunc ())))
            end) as -> by reflexivity.
  destruct (Scan cols _ _) as [e3 newObj']. cbn [fst snd] in *. subst e3.
  destruct transform as [f|]; rewrite IH; unfold append;
    (destruct rows; [reflexivity|]); cbn [default from_option id];
    by rewrite <- app_assoc.
Qed.

(** X17. When every row the select query of [Get] returned scans,
    [Get] returns success with one element per row, in the order of
    the rows: the record the row was scanned into, or what the row
    transform made of it. With no row at all the slice it returns is
    nil. *)
Theorem Get_returns_rows_in_order (newObjFunc : unit → Obj) (options : GetOptions.t)
    (w : World DB) (q : string) (args : list value) (rows : list (list value)) :
  EvQuery q args (inr rows) ∈ events (Get c newObjFunc options) w →
  Forall (fun cols =>
            fst (Scan cols (GetObjFieldInterfaces (newObjFunc ()) true) (newObjFunc ()))
            = None) rows →
  fst (Get c newObjFunc options w) =
    (match rows with
     | [] => None
     | _ => Some (row_element newObjFunc (GetOptions.RowObjTransformFunc options)
                    <$> rows)
     end, None).
Proof.
  intros Hin Hrows.
  pose proof (Get_run c newObjFunc options) as Hrun.
  rewrite Get_events in Hin. cbv zeta in *.
  destruct (getSQLGenerator c (newObjFunc ())) as [h|err] eqn:Hgen; [|absent Hin].
  apply elem_of_app in Hin as [Hin|Hin];
    [apply (filter_check_validates c) in Hin; discriminate|].
  destruct (fst (validated_filters c _ _ w)) as [verr|] eqn:Hv; [absent Hin|].
  apply list_elem_of_singleton in Hin. injection Hin as -> -> Hans.
  rewrite (Hrun h w eq_refl Hv), <- Hans. cbn [fst].
  rewrite (Get_rows_all _ _ _ _ Hrows). by destruct rows.
Qed.

(** The one query of [GetCount]. *)
Lemma GetCount_run (newObjFunc : unit → Obj) (options : GetCountOptions.t)
    (w : World DB) :
  let obj := newObjFunc () in
  let filters := GetCountOptions.Filters options in
  GetCount c GetQuerySelectCount newObjFunc options w =
    match getSQLGenerator c obj with
    | inr err => ((0, Some err), w)
    | inl h =>
        let q := GetQuerySelectCount h filters in
        let args := GetFiltersInterfaces c filters in
        let ans := conn_QueryRow c q args (conn w) in
        match fst (validated_filters c obj filters w) with
        | Some err =>
            ((0, Some err), mkWorld (conn w) (trace w ++ filter_check c obj filters))
        | None =>
            (match Row_Scan_int64 (fst ans) with
             | inl err3 =>
                 (0, Some (mkErr "DBQueryRowScan"
                             (Errorf "Error scanning DB query row: " (Some err3))))
             | inr cnt => (cnt, None)
             end,
             mkWorld (snd ans)
               (trace w ++ filter_check c obj filters ++ [EvQueryRow q args (fst ans)]))
        end
    end.
Proof.
  intros obj filters. unfold GetCount. fold obj filters.
  destruct (getSQLGenerator c obj) as [h|err]; [|reflexivity].
  unfold mbind at 1, M_bind at 1.
  pose proof (validated_filters_world c obj filters w) as Hw.
  destruct (validated_filters c obj filters w) as [verr w1].
  cbn [fst snd] in *. subst w1. destruct verr as [err|]; [reflexivity|].
  unfold mbind, M_bind, dbConn_QueryRow, emit, mret, M_ret. cbn [conn trace]. cbv zeta.
  destruct (conn_QueryRow c _ _ _) as [row d]. cbn [fst snd].
  destruct (Row_Scan_int64 row); by rewrite <- app_assoc.
Qed.

Lemma GetCount_events (newObjFunc : unit → Obj) (options : GetCountOptions.t)
    (w : World DB) :
  let obj := newObjFunc () in
  let filters := GetCountOptions.Filters options in
  events (GetCount c GetQuerySelectCount newObjFunc options) w =
    match getSQLGenerator c obj with
    | inr _ => []
    | inl h =>
        let q := GetQuerySelectCount h filters in
        let args := GetFiltersInterfaces c filters in
        filter_check c obj filters ++
        match fst (validated_filters c obj filters w) with
        | Some _ => []
        | None => [EvQueryRow q args (fst (conn_QueryRow c q args (conn w)))]
        end
    end.
Proof.
  intros obj filters. apply events_app. rewrite GetCount_run. cbv zeta.
  fold obj filters.
  destruct (getSQLGenerator c obj) as [h|err]; [|by rewrite app_nil_r].
  destruct (fst (validated_filters c obj filters w)); [by rewrite app_nil_r|].
  reflexivity.
Qed.

(** X18. [GetCount] returns the count 0 with every error, and sends
    at most one statement. *)
Theorem GetCount_error_zero (newObjFunc : unit → Obj) (options : GetCountOptions.t)
    (w : World DB) :
  let run := GetCount c GetQuerySelectCount newObjFunc options in
  (snd (fst (run w)) ≠ None → fst (fst (run w)) = 0)
  ∧ (statements (events run w) ≤ 1)%nat.
Proof.
  cbv zeta. unfold statements. rewrite GetCount_events, GetCount_run. cbv zeta.
  destruct (getSQLGenerator c (newObjFunc ())) as [h|err]; [|split; [done|cbn; lia]].
  rewrite filter_app, length_app.
  assert (length (filter (fun e => is_statement e = true)
                    (filter_check c (newObjFunc ()) (GetCountOptions.Filters options)))
          = 0%nat) as ->.
  { destruct (filter_check_cases (newObjFunc ()) (GetCountOptions.Filters options))
      as [[_ ->]|[_ ->]]; reflexivity. }
  destruct (fst (validated_filters c _ _ w)) as [verr|]; [split; [done|cbn; lia]|].
  split.
  2:{ cbn. destruct (decide (true = true)); cbn; lia. }
  cbn [fst]. destruct (Row_Scan_int64 _); [done|]. cbn. by intros [].
Qed.

(** X19. The answer to the count query decides [GetCount]. A row of
    one int64 column is the count returned. A failure of the query,
    a missing row ([ErrNoRows]) included, comes back wrapped under
    "DBQueryRowScan" with the count 0. A count is returned only for a
    row of exactly one column. The query is the count query of the
    schema for the filters, bound to the values of the filters. *)
Theorem GetCount_counts (newObjFunc : unit → Obj) (options : GetCountOptions.t)
    (w : World DB) (q : string) (args : list value) (res : error + list value) :
  let run := GetCount c GetQuerySelectCount newObjFunc options in
  EvQueryRow q args res ∈ events run w →
  (∀ n, res = inr [VInt64 n] → fst (run w) = (n, None))
  ∧ (∀ e, res = inl e →
          ∃ err, fst (run w) = (0, Some err)
                 ∧ Op err = "DBQueryRowScan"
                 ∧ Unwrap (Err err) = Some e)
  ∧ (∀ n, fst (run w) = (n, None) → ∃ cv, res = inr [cv])
  ∧ ∃ h, getSQLGenerator c (newObjFunc ()) = inl h
         ∧ q = GetQuerySelectCount h (GetCountOptions.Filters options)
         ∧ args = GetFiltersInterfaces c (GetCountOptions.Filters options).
Proof.
  intros run Hin. subst run.
  rewrite GetCount_events in Hin. rewrite GetCount_run. cbv zeta in *.
  destruct (getSQLGenerator c (newObjFunc ())) as [h|err]; [|absent Hin].
  apply elem_of_app in Hin as [Hin|Hin];
    [apply (filter_check_validates c) in Hin; discriminate|].
  destruct (fst (validated_filters c _ _ w)) as [verr|]; [absent Hin|].
  apply list_elem_of_singleton in Hin. injection Hin as -> -> <-.
  cbn [fst].
  split; [|split; [|split; [|by exists h]]].
  - by intros n ->.
  - intros e ->. by eexists.
  - intros n. destruct res as [e|[|cv [|cv' cols]]]; cbn [Row_Scan_int64 Scan_int64];
      [discriminate..|eauto|discriminate].
Qed.

(** X20. [Save] and [Delete] compose: the record [Save] hands back
    after an insert carries the key the database generated, and when
    that key is not 0 a [Delete] of this record sends the
    delete-by-identity statement with that key and, when it succeeds,
    seeds the cascade with that key alone. *)
Theorem Save_then_Delete (obj : Obj) (sopts : SaveOptions.t) (dopts : DeleteOptions.t)
    (h : StructSQL) (inv : gmap string Z) (key : Z) (w : World DB) :
  let inserted := mkObj (ObjType obj) key (Data obj) in
  let w1 := snd (Save c obj sopts w) in
  let ans := conn_Exec c (GetQueryDeleteById h) [VInt64 key] (conn w1) in
  getSQLGenerator c obj = inl h →
  getSQLGenerator c inserted = inl h →
  validator c obj ∅ = (true, inv, None) →
  ID obj = 0 →
  fst (conn_QueryRow c (GetQueryInsert h)
         (deref obj (GetObjFieldInterfaces obj false)) (conn w)) = inr [VInt64 key] →
  key ≠ 0 →
  fst (Save c obj sopts w) = (None, inserted)
  ∧ events (Delete c inserted dopts) w1 =
      EvExec (GetQueryDeleteById h) [VInt64 key] (fst ans)
      :: match fst ans with
         | Some _ => []
         | None =>
             [EvRunOnDelete (ResetFields inserted) [key] 0
                (fst (cascade c (ResetFields inserted) (DeleteOptions.Constructors dopts)
                        (tagName c) [key] 0 (snd ans)))]
         end.
Proof.
  intros inserted w1 ans Hgen Hgen' Hval Hid Hrow Hkey.
  split.
  - rewrite (Save_insert c _ sopts _ _ w Hgen Hval Hid). cbv zeta. rewrite Hrow.
    reflexivity.
  - apply events_app. apply Z.eqb_neq in Hkey.
    run_ops. unfold GetObjIDValue. rewrite Hgen'.
    change (ID inserted) with key. rewrite Hkey.
    change (deref inserted [GetObjIDInterface inserted]) with [VInt64 key].
    fold ans. destruct ans as [[e|] d]; cbn [fst snd conn trace]; [reflexivity|].
    destruct (cascade c _ _ _ _ _ _) as [[e3|] d']; cbn [fst snd];
      rewrite <- app_assoc; reflexivity.
Qed.

End Further.

(** ** The further properties on the sample schema *)

Section MoreExamples.

Import Sample Script.


Lemma Load_binds_row_witness :
  strconv.Atoi "5" = inr 5
  ∧ fst (conn_QueryRow ctlFound (GetQuerySelectById personSQL) [VInt64 5] (conn w0))
    = inr (VInt64 5 :: [VString "Bob"; VInt 41; VBool false])
  ∧ fits (newPerson ()) [VString "Bob"; VInt 41; VBool false]
  ∧ fst (Load ctlFound (newPerson ()) "5" w0) = (None, person 5 "Bob" 41 false).
Proof.
  assert (fits (newPerson ()) [VString "Bob"; VInt 41; VBool false]) as Hfit.
  { repeat constructor. }
  split; [reflexivity|]. split; [reflexivity|]. split; [exact Hfit|].
  apply (Load_binds_row ctlFound (newPerson ()) "5" 5 personSQL 5
           [VString "Bob"; VInt 41; VBool false] w0 eq_refl eq_refl eq_refl Hfit).
Defined.

Lemma Delete_outcome_witness :
  ID saved ≠ 0
  ∧ Delete ctlDown saved (DeleteOptions.mk ∅) w0
    = ((Some (DBQuery_failure down), saved),
       mkWorld 1%nat [EvExec "DELETE FROM persons WHERE id=$1" [VInt64 5] (Some down)]).
Proof.
  assert (ID saved ≠ 0) as Hid by discriminate.
  split; [exact Hid|].
  apply (Delete_outcome ctlDown saved (DeleteOptions.mk ∅) personSQL w0 eq_refl Hid).
Defined.

Lemma rejected_filters_stop_witness :
  byName ≠ ∅
  ∧ validator ctlInvalid (newPerson ()) byName = fails
  ∧ Get ctlInvalid newPerson (GetOptions.mk [] 10 0 byName None) w0
    = ((None, Some (mkErr "ValidateFilters" (ErrValidation {["Name" := 1]}))),
       mkWorld 0%nat [EvValidate (newPerson ()) byName fails]).
Proof.
  assert (byName ≠ ∅) as Hne.
  { intros H. apply (f_equal (fun m : gmap string value => m !! "Name")) in H.
    vm_compute in H. discriminate H. }
  split; [exact Hne|]. split; [reflexivity|].
  destruct (rejected_filters_stop ctlInvalid countQuery newPerson byName personSQL
              {["Name" := 1]} w0 eq_refl Hne eq_refl) as (_ & Hget & _).
  apply Hget.
Defined.

Lemma DeleteMultiple_failure_skips_cascade_witness :
  let options := DeleteMultipleOptions.mk ∅ 0 ∅ in
  let rows := [[VInt64 7]; [VString "oops"]] in
  let run := events (DeleteMultiple ctlBadIds newPerson options) w0 in
  EvQuery "DELETE FROM persons RETURNING id" [] (inr rows) ∈ run
  ∧ (∀ o i n r, EvRunOnDelete o i n r ∉ run)
  ∧ ∃ err, fst (DeleteMultiple ctlBadIds newPerson options w0) = Some err
           ∧ Op err = "DBQueryRowsScan".
Proof.
  intros options rows run.
  assert (EvQuery "DELETE FROM persons RETURNING id" [] (inr rows) ∈ run) as Hin.
  { vm_compute. constructor. }
  assert (∀ rows' ids, @inr error _ rows = inr rows' →
                       DeleteMultiple_rows rows' [] ≠ inr ids) as Hbad.
  { intros rows' ids [= <-]. discriminate. }
  split; [exact Hin|].
  exact (DeleteMultiple_failure_skips_cascade ctlBadIds newPerson options w0 _ _ _
           Hin Hbad).
Defined.

Lemma StringToFieldValues_well_typed_witness :
  StringToFieldValues member (VString <$> {["Age" := "30"]})
    = Done {["Age" := VInt 30]}
  ∧ ({["Age" := VInt 30]} : gmap string value) !! "Age" = Some (VInt 30)
  ∧ ∃ s, ({["Age" := "30"]} : gmap string string) !! "Age" = Some s
         ∧ FieldByName member "Age" = Some Int
         ∧ (- 2 ^ 63 ≤ 30 < 2 ^ 63)%Z.
Proof.
  assert (StringToFieldValues member (VString <$> {["Age" := "30"]})
          = Done {["Age" := VInt 30]}) as Hrun by (vm_compute; reflexivity).
  assert (({["Age" := VInt 30]} : gmap string value) !! "Age" = Some (VInt 30)) as Hk
    by (vm_compute; reflexivity).
  split; [exact Hrun|]. split; [exact Hk|].
  exact (StringToFieldValues_well_typed member {["Age" := "30"]} _ "Age" (VInt 30)
           Hrun Hk).
Defined.

Lemma UpdateMultiple_bindings_witness :
  let options := UpdateMultipleOptions.mk ∅ 0 false in
  getSQLGenerator ctlOK (newPerson ()) = inl personSQL
  ∧ byName ≠ ∅
  ∧ validator ctlOK (newPerson ()) byName = passes
  ∧ fst (validated_filters ctlOK (newPerson ()) ∅ w0) = None
  ∧ UpdateMultiple ctlOK newPerson byName options w0
    = (Done None,
       mkWorld 1%nat [EvValidate (newPerson ()) byName passes;
                      EvExec "UPDATE persons SET" [VString "Ann"] None]).
Proof.
  intros options.
  assert (byName ≠ ∅) as Hne.
  { intros H. apply (f_equal (fun m : gmap string value => m !! "Name")) in H.
    vm_compute in H. discriminate H. }
  split; [reflexivity|]. split; [exact Hne|]. split; [reflexivity|].
  split; [reflexivity|].
  exact (UpdateMultiple_bindings ctlOK newPerson byName byName options personSQL ∅ w0
           eq_refl Hne eq_refl eq_refl eq_refl).
Defined.

Lemma UpdateMultiple_values_first_witness :
  let options := UpdateMultipleOptions.mk byName 0 false in
  byName ≠ ∅
  ∧ validator ctlInvalid (newPerson ()) byName = fails
  ∧ UpdateMultiple ctlInvalid newPerson byName options w0
    = (Done (Some (mkErr "ValidateValues" (ErrValidation {["Name" := 1]}))),
       mkWorld 0%nat [EvValidate (newPerson ()) byName fails]).
Proof.
  intros options.
  assert (byName ≠ ∅) as Hne.
  { intros H. apply (f_equal (fun m : gmap string value => m !! "Name")) in H.
    vm_compute in H. discriminate H. }
  split; [exact Hne|]. split; [reflexivity|].
  exact (UpdateMultiple_values_first ctlInvalid newPerson byName byName options
           personSQL {["Name" := 1]} w0 eq_refl Hne eq_refl eq_refl).
Defined.

Lemma UpdateMultiple_converted_to_nothing_witness :
  let options := UpdateMultipleOptions.mk ∅ 0 true in
  let values : gmap string value := {["Bogus" := VString "x"]} in
  values ≠ ∅
  ∧ (∀ k v, values !! k = Some v → FieldByName (newPerson ()) k = None)
  ∧ validator ctlOK (newPerson ()) ∅ = passes
  ∧ UpdateMultiple ctlOK newPerson values options w0
    = (Done None,
       mkWorld 1%nat [EvValidate (newPerson ()) ∅ passes;
                      EvExec "UPDATE persons SET" [] None]).
Proof.
  intros options values.
  assert (values ≠ ∅) as Hne.
  { intros H. apply (f_equal (fun m : gmap string value => m !! "Bogus")) in H.
    vm_compute in H. discriminate H. }
  assert (∀ k v, values !! k = Some v → FieldByName (newPerson ()) k = None) as Hnone.
  { intros k v Hk. destruct (decide (k = "Bogus")) as [->|Hb]; [reflexivity|].
    subst values. rewrite lookup_singleton_ne in Hk by done. discriminate. }
  split; [exact Hne|]. split; [exact Hnone|]. split; [reflexivity|].
  exact (UpdateMultiple_converted_to_nothing ctlOK newPerson values options personSQL
           ∅ w0 eq_refl Hne Hnone eq_refl eq_refl eq_refl).
Defined.

Lemma UpdateMultiple_panics_witness :
  let options := UpdateMultipleOptions.mk ∅ 0 true in
  let values : gmap string value := {["Age" := VInt 30]} in
  values !! "Age" = Some (VInt 30)
  ∧ not_a_string (newPerson ()) "Age" (VInt 30) = true
  ∧ UpdateMultiple ctlOK newPerson values options w0 = (Panic assertion_panic, w0).
Proof.
  intros options values.
  assert (values !! "Age" = Some (VInt 30)) as Hk by (vm_compute; reflexivity).
  split; [exact Hk|]. split; [reflexivity|].
  exact (UpdateMultiple_panics ctlOK newPerson values options personSQL "Age" (VInt 30)
           w0 eq_refl eq_refl Hk eq_refl).
Defined.

Lemma Get_returns_rows_in_order_witness :
  let options := GetOptions.mk [] 10 0 ∅ None in
  EvQuery "SELECT id,name,age,active FROM persons" [] (inr [bobRow; eveRow])
    ∈ events (Get ctlFound newPerson options) w0
  ∧ fst (Get ctlFound newPerson options w0)
    = (Some [AnyObj (person 5 "Bob" 41 false); AnyObj (person 6 "Eve" 29 true)], None).
Proof.
  intros options.
  assert (EvQuery "SELECT id,name,age,active FROM persons" [] (inr [bobRow; eveRow])
            ∈ events (Get ctlFound newPerson options) w0) as Hin.
  { vm_compute. constructor. }
  assert (Forall (fun cols =>
                    fst (Scan cols (GetObjFieldInterfaces (newPerson ()) true)
                           (newPerson ())) = None) [bobRow; eveRow]) as Hrows.
  { repeat constructor. }
  split; [exact Hin|].
  exact (Get_returns_rows_in_order ctlFound newPerson options w0 _ _ _ Hin Hrows).
Defined.

Lemma GetCount_counts_witness :
  let run := GetCount ctlOK countQuery newPerson (GetCountOptions.mk ∅) in
  EvQueryRow "SELECT COUNT(*) AS cnt FROM persons" [] (inr [VInt64 42]) ∈ events run w0
  ∧ fst (run w0) = (42, None).
Proof.
  intros run.
  assert (EvQueryRow "SELECT COUNT(*) AS cnt FROM persons" [] (inr [VInt64 42])
            ∈ events run w0) as Hin.
  { vm_compute. constructor. }
  split; [exact Hin|].
  destruct (GetCount_counts ctlOK countQuery newPerson (GetCountOptions.mk ∅) w0 _ _ _
              Hin) as (Hcount & _).
  apply (Hcount 42). reflexivity.
Defined.

Lemma Save_then_Delete_witness :
  validator ctlOK ann ∅ = passes
  ∧ ID ann = 0
  ∧ (42 : Z) ≠ 0
  ∧ fst (Save ctlOK ann (SaveOptions.mk false) w0) = (None, person 42 "Ann" 30 true)
  ∧ events (Delete ctlOK (person 42 "Ann" 30 true) (DeleteOptions.mk ∅))
      (snd (Save ctlOK ann (SaveOptions.mk false) w0))
    = [EvExec "DELETE FROM persons WHERE id=$1" [VInt64 42] None;
       EvRunOnDelete (person 0 "" 0 false) [42] 0 None].
Proof.
  assert ((42 : Z) ≠ 0) as Hkey by discriminate.
  split; [reflexivity|]. split; [reflexivity|]. split; [exact Hkey|].
  exact (Save_then_Delete ctlOK ann (SaveOptions.mk false) (DeleteOptions.mk ∅)
           personSQL ∅ 42 w0 eq_refl eq_refl eq_refl eq_refl eq_refl Hkey).
Defined.

End MoreExamples.
